(** * Bowldem (Discord activity): daily puzzle lifecycle, scoring and ranking

    A shallow embedding of the game core:
    - [src/utils/dailyPuzzle.js]: calendar, puzzle selection, persisted game
      state and statistics;
    - the [useDailyPuzzle] hook: the guess transition;
    - the [useLeaderboard] hook: submission, percentile, top entries;
    - [App]: the local scoring function [generateNewFeedback];
    - [ArchiveModal.jsx]: the locally generated archive listing.

    Conventions of the embedding.
    - A calendar date string ['YYYY-MM-DD'] is represented by its day number,
      the count of days since 1970-01-01 (so equality of date strings is
      equality of day numbers); an instant is its count of milliseconds since
      1970-01-01T00:00:00Z.
    - [Date.prototype.setDate(getDate() + n)] works on local wall-clock time:
      it is modelled as the language defines it, over the host time zone,
      which is part of the environment ([localTZA]).
    - JavaScript numbers that hold counters, indices and timestamps are
      integers far below 2^53 and are modelled by [Z]; the one genuinely
      fractional computation (the percentile) is done in IEEE binary64.
    - [localStorage] is modelled as a record of optional slots whose reads and
      writes succeed. *)

From Stdlib Require Import ZArith Lia Bool List Sorting.Sorted Sorting.Permutation.
From Stdlib Require Import Floats.SpecFloat.
From stdpp Require Import base option list gmap strings pretty.

Local Open Scope Z_scope.

(* ===================================================================== *)
(** ** JavaScript values used by the program *)
(* ===================================================================== *)

Module JS.

(** How a call ends: with a value, or by throwing an error of a given name. *)
Inductive Completion (A : Type) : Type :=
| Normal (a : A)
| Throw (name : string).
Arguments Normal {A} a.
Arguments Throw {A} name.

(** An integer-valued number or [NaN] (the result of [x % 0]). *)
Inductive num : Type :=
| Int (z : Z)
| NaN.

(** [a % b] on integers: the remainder has the sign of the dividend, and a
    zero divisor gives [NaN]. *)
Definition rem (a b : Z) : num :=
  if b =? 0 then NaN else Int (Z.rem a b).

(** [arr[i]] for a number [i]: [undefined] unless [i] is the index of an
    element. *)
Definition index {A : Type} (arr : list A) (i : num) : option A :=
  match i with
  | Int z => if z <? 0 then None else arr !! Z.to_nat z
  | NaN => None
  end.

(** Arrays of numbers that may have holes ([None] stands for a hole,
    [undefined] or [null], which JSON does not tell apart). *)
Abbreviation sparse := (list (option Z)).

(** [arr[i]] on such an array. *)
Definition get (arr : sparse) (i : Z) : option Z :=
  if i <? 0 then None else mjoin (arr !! Z.to_nat i).

(** [arr[i] = v]: overwrites in range, and beyond the end extends the array,
    leaving holes in between. A negative [i] names a plain property, which
    is not an element (and is dropped by JSON): the elements are unchanged. *)
Definition set (arr : sparse) (i : Z) (v : Z) : sparse :=
  if i <? 0 then arr
  else
    let n := Z.to_nat i in
    if (n <? length arr)%nat then <[n := Some v]> arr
    else arr ++ replicate (n - length arr)%nat None ++ [Some v].

(** [x || 0] for a number or [undefined]. *)
Definition or0 (x : option Z) : Z := default 0 x.

(** [arr.slice(0, n)]: a negative [n] counts from the end. *)
Definition slice0 {A : Type} (arr : list A) (n : Z) : list A :=
  if n <? 0 then take (Z.to_nat (Z.of_nat (length arr) + n)) arr
  else take (Z.to_nat n) arr.

(** [Array.prototype.sort(cmp)]: a stable sort. With a comparator that is a
    consistent ordering the result is determined by stability, so any stable
    algorithm models it; this one inserts from the right. A comparator
    result [<= 0] keeps the first argument in front. *)
Section Sort.
Context {A : Type} (cmp : A -> A -> Z).

Fixpoint insert (x : A) (l : list A) : list A :=
  match l with
  | [] => [x]
  | y :: l' => if cmp x y <=? 0 then x :: y :: l' else y :: insert x l'
  end.

Definition sort (l : list A) : list A := foldr insert [] l.
End Sort.

(** IEEE 754 binary64, the number type of the language. *)
Definition prec : Z := 53.
Definition emax : Z := 1024.
Definition double := spec_float.

Definition ofZ (z : Z) : double := binary_normalize prec emax z 0 false.
Definition fdiv (x y : double) : double := SFdiv prec emax x y.
Definition fmul (x y : double) : double := SFmul prec emax x y.

(** The integer [floor (m * 2^e + 1/2)]. *)
Definition round_half_up (m e : Z) : Z :=
  if 0 <=? e then m * 2 ^ e
  else (2 * m + 2 ^ (- e)) / (2 * 2 ^ (- e)).

(** [Math.round]: the nearest integer, ties towards +infinity; zeros,
    infinities and NaN are returned as they are, and a result of zero keeps
    the sign of the argument. *)
Definition Math_round (x : double) : double :=
  match x with
  | S754_finite s m e =>
      let z := round_half_up (if s then Z.neg m else Z.pos m) e in
      if z =? 0 then S754_zero s else ofZ z
  | _ => x
  end.

(** [arr.slice(start, end)]: a negative bound counts from the end, and
    both bounds are brought into the range of the array. *)
Definition clampIndex (len i : Z) : Z :=
  if i <? 0 then Z.max (len + i) 0 else Z.min i len.

Definition slice {A : Type} (arr : list A) (start end_ : Z) : list A :=
  let len := Z.of_nat (length arr) in
  let k := clampIndex len start in
  let final := clampIndex len end_ in
  take (Z.to_nat (final - k)) (drop (Z.to_nat k) arr).

(** The sign of [x - y] for two doubles, as a sort comparator reads it:
    negative, zero or positive, and zero when the difference is [NaN]. *)
Definition signOfDifference (x y : double) : Z :=
  match SFcompare x y with
  | Some Lt => -1
  | Some Gt => 1
  | _ => 0
  end.

End JS.

(* ===================================================================== *)
(** ** src/utils/dailyPuzzle.js *)
(* ===================================================================== *)

Module DailyPuzzle.

Definition MS_PER_DAY : Z := 1000 * 60 * 60 * 24.

(** ['2026-01-15'], the day of puzzle #0. *)
Definition EPOCH_DATE : Z := 20468.

Definition MAX_GUESSES : Z := 5.

(** [new Date(dateStr + 'T00:00:00Z').getTime()], and [new Date(dateStr)]. *)
Definition utcMidnight (dateStr : Z) : Z := dateStr * MS_PER_DAY.

(** [date.toISOString().split('T')[0]]. *)
Definition isoDate (t : Z) : Z := t / MS_PER_DAY.

(** The four values of [gameStatus]:
    ['not_started' | 'in_progress' | 'won' | 'lost']. *)
Inductive GameStatus : Type := NotStarted | InProgress | Won | Lost.

#[export] Instance GameStatus_eq_dec : EqDecision GameStatus.
Proof. solve_decision. Defined.

(** The persisted game state. [modalShown] is absent ([None]) from the
    states written by [initializeTodayGame]. *)
Record GameState : Type := mkGameState {
  lastPlayedDate : option Z;
  lastPuzzleNumber : option Z;
  guesses : list string;
  gameStatus : GameStatus;
  modalShown : option bool
}.

Record Stats : Type := mkStats {
  gamesPlayed : Z;
  gamesWon : Z;
  currentStreak : Z;
  maxStreak : Z;
  guessDistribution : JS.sparse;
  lastWinDate : option Z
}.

(** The three keys of [STORAGE_KEYS] in [localStorage]. *)
Record Storage : Type := mkStorage {
  slot_STATS : option Stats;
  slot_STATE : option GameState;
  slot_DEBUG_OFFSET : option Z
}.

(** What the functions read from outside: the clock, the URL, and the host
    time zone. [localTZA t true] is the zone's offset from UTC, in
    milliseconds, at the instant [t]; [localTZA w false] is the offset used to
    read the local wall-clock time [w] (for a repeated or skipped local time,
    the offset in force before the change of clocks). *)
Record Env : Type := mkEnv {
  now : Z;
  debugParam : bool;
  localTZA : Z -> bool -> Z
}.

(** [LocalTime(t)] and [UTC(w)] of the language definition. *)
Definition LocalTime (env : Env) (t : Z) : Z := t + localTZA env t true.

Definition UTC (env : Env) (w : Z) : Z := w - localTZA env w false.

(** [date.setDate(date.getDate() + n)] on a date holding the instant [t]:
    the local wall-clock time moves by [n] days and is read back as an
    instant. *)
Definition addDays (env : Env) (t n : Z) : Z :=
  UTC env (LocalTime env t + n * MS_PER_DAY).

Definition isDebugMode (env : Env) : bool := debugParam env.

Definition getDebugDateOffset (env : Env) (ls : Storage) : Z :=
  if isDebugMode env then default 0 (slot_DEBUG_OFFSET ls) else 0.

Definition getEffectiveDate (env : Env) (ls : Storage) : Z :=
  let debugOffset := getDebugDateOffset env ls in
  isoDate (addDays env (now env) debugOffset).

Definition getPuzzleNumber (dateStr : Z) : Z :=
  let diffTime := utcMidnight dateStr - utcMidnight EPOCH_DATE in
  let diffDays := diffTime / MS_PER_DAY in
  Z.max 0 diffDays.

Definition getPuzzleIndex (puzzleNumber totalPuzzles : Z) : JS.num :=
  JS.rem puzzleNumber totalPuzzles.

Section Selection.
Context {Puzzle : Type}.

Record PuzzleData : Type := mkPuzzleData {
  puzzle : option Puzzle;
  puzzleNumber : Z;
  puzzleIndex : JS.num
}.

(** No statement of the function can throw on an array argument. *)
Definition getPuzzleForToday (env : Env) (ls : Storage) (puzzles : list Puzzle)
  : JS.Completion PuzzleData :=
  let puzzleNumber := getPuzzleNumber (getEffectiveDate env ls) in
  let puzzleIndex := getPuzzleIndex puzzleNumber (Z.of_nat (length puzzles)) in
  JS.Normal {| puzzle := JS.index puzzles puzzleIndex;
               puzzleNumber := puzzleNumber;
               puzzleIndex := puzzleIndex |}.
End Selection.
Arguments PuzzleData Puzzle : clear implicits.

(** *** Game state in localStorage *)

Definition getDefaultGameState : GameState :=
  {| lastPlayedDate := None;
     lastPuzzleNumber := None;
     guesses := [];
     gameStatus := NotStarted;
     modalShown := Some false |}.

(** [{ ...getDefaultGameState(), ...JSON.parse(stored) }]: a stored key
    wins, an absent one takes the default. *)
Definition loadGameState (ls : Storage) : GameState :=
  match slot_STATE ls with
  | Some stored =>
      {| lastPlayedDate := lastPlayedDate stored;
         lastPuzzleNumber := lastPuzzleNumber stored;
         guesses := guesses stored;
         gameStatus := gameStatus stored;
         modalShown :=
           match modalShown stored with
           | Some b => Some b
           | None => modalShown getDefaultGameState
           end |}
  | None => getDefaultGameState
  end.

Definition saveGameState (state : GameState) (ls : Storage) : Storage :=
  {| slot_STATS := slot_STATS ls;
     slot_STATE := Some state;
     slot_DEBUG_OFFSET := slot_DEBUG_OFFSET ls |}.

Definition with_guesses (state : GameState) (gs : list string) : GameState :=
  {| lastPlayedDate := lastPlayedDate state;
     lastPuzzleNumber := lastPuzzleNumber state;
     guesses := gs;
     gameStatus := gameStatus state;
     modalShown := modalShown state |}.

Definition with_status (state : GameState) (s : GameStatus) : GameState :=
  {| lastPlayedDate := lastPlayedDate state;
     lastPuzzleNumber := lastPuzzleNumber state;
     guesses := guesses state;
     gameStatus := s;
     modalShown := modalShown state |}.

(** [recordGuess(playerKey)]: returns the state and the storage after. *)
Definition recordGuess (playerKey : string) (ls : Storage) : GameState * Storage :=
  let state := loadGameState ls in
  if negb (bool_decide (gameStatus state = InProgress)) then (state, ls)
  else
    let state := with_guesses state (guesses state ++ [playerKey]) in
    (state, saveGameState state ls).

(** *** Statistics in localStorage *)

Definition getDefaultStats : Stats :=
  {| gamesPlayed := 0;
     gamesWon := 0;
     currentStreak := 0;
     maxStreak := 0;
     guessDistribution := [Some 0; Some 0; Some 0; Some 0; Some 0];
     lastWinDate := None |}.

(** Every write of the slot stores all six keys, so the merge with the
    defaults returns the stored record. *)
Definition loadStats (ls : Storage) : Stats :=
  match slot_STATS ls with
  | Some stored => stored
  | None => getDefaultStats
  end.

Definition saveStats (stats : Stats) (ls : Storage) : Storage :=
  {| slot_STATS := Some stats;
     slot_STATE := slot_STATE ls;
     slot_DEBUG_OFFSET := slot_DEBUG_OFFSET ls |}.

Definition updateStatsOnComplete (won : bool) (guessCount : Z)
    (env : Env) (ls : Storage) : Stats * Storage :=
  let stats := loadStats ls in
  let today := getEffectiveDate env ls in
  let gamesPlayed' := gamesPlayed stats + 1 in
  let stats' :=
    if won then
      let gamesWon' := gamesWon stats + 1 in
      let dist' :=
        JS.set (guessDistribution stats) (guessCount - 1)
               (JS.or0 (JS.get (guessDistribution stats) (guessCount - 1)) + 1) in
      let yesterdayStr := isoDate (addDays env (utcMidnight today) (-1)) in
      let currentStreak' :=
        if bool_decide (lastWinDate stats = Some yesterdayStr)
        then currentStreak stats + 1
        else if negb (bool_decide (lastWinDate stats = Some today))
        then 1
        else currentStreak stats in
      {| gamesPlayed := gamesPlayed';
         gamesWon := gamesWon';
         currentStreak := currentStreak';
         maxStreak := Z.max (maxStreak stats) currentStreak';
         guessDistribution := dist';
         lastWinDate := Some today |}
    else
      {| gamesPlayed := gamesPlayed';
         gamesWon := gamesWon stats;
         currentStreak := 0;
         maxStreak := maxStreak stats;
         guessDistribution := guessDistribution stats;
         lastWinDate := lastWinDate stats |} in
  (stats', saveStats stats' ls).

(** [completeGame(won)]: returns the final game state. *)
Definition completeGame (won : bool) (env : Env) (ls : Storage)
    : GameState * Storage :=
  let state := loadGameState ls in
  let state := with_status state (if won then Won else Lost) in
  let ls := saveGameState state ls in
  let '(_, ls) :=
    updateStatsOnComplete won (Z.of_nat (length (guesses state))) env ls in
  (state, ls).

(** *** The rest of the file *)

(** [getTodayUTC()]. *)
Definition getTodayUTC (env : Env) : Z := isoDate (now env).

(** The four values of [reason] in the result of [canPlayToday]. *)
Inductive PlayReason : Type := new_user | new_day | already_completed | continue.

#[export] Instance PlayReason_eq_dec : EqDecision PlayReason.
Proof. solve_decision. Defined.

Record CanPlay : Type := mkCanPlay {
  canPlay : bool;
  reason : PlayReason;
  existingState : option GameState
}.

Definition canPlayToday (env : Env) (ls : Storage) : CanPlay :=
  let state := loadGameState ls in
  let today := getEffectiveDate env ls in
  match lastPlayedDate state with
  | None => {| canPlay := true; reason := new_user; existingState := None |}
  | Some lastPlayed =>
      if negb (lastPlayed =? today) then
        {| canPlay := true; reason := new_day; existingState := None |}
      else if bool_decide (gameStatus state = Won)
              || bool_decide (gameStatus state = Lost) then
        {| canPlay := false; reason := already_completed;
           existingState := Some state |}
      else
        {| canPlay := true; reason := continue; existingState := Some state |}
  end.

(** [initializeTodayGame()]: the returned state and the storage after. The
    fresh state is written without a [modalShown] key. *)
Definition initializeTodayGame (env : Env) (ls : Storage) : GameState * Storage :=
  let cp := canPlayToday env ls in
  let today := getEffectiveDate env ls in
  let puzzleNumber := getPuzzleNumber today in
  match bool_decide (reason cp = continue), existingState cp with
  | true, Some existing => (existing, ls)
  | _, _ =>
      let newState :=
        {| lastPlayedDate := Some today;
           lastPuzzleNumber := Some puzzleNumber;
           guesses := [];
           gameStatus := InProgress;
           modalShown := None |} in
      (newState, saveGameState newState ls)
  end.

(** [markModalShown()]. *)
Definition markModalShown (ls : Storage) : GameState * Storage :=
  let state := loadGameState ls in
  let state :=
    {| lastPlayedDate := lastPlayedDate state;
       lastPuzzleNumber := lastPuzzleNumber state;
       guesses := guesses state;
       gameStatus := gameStatus state;
       modalShown := Some true |} in
  (state, saveGameState state ls).

(** [setDebugDateOffset(offset)], for an integer offset. *)
Definition setDebugDateOffset (offset : Z) (ls : Storage) : Storage :=
  {| slot_STATS := slot_STATS ls;
     slot_STATE := slot_STATE ls;
     slot_DEBUG_OFFSET := Some offset |}.

(** [clearAllData()]. *)
Definition clearAllData (ls : Storage) : Storage :=
  {| slot_STATS := None; slot_STATE := None; slot_DEBUG_OFFSET := None |}.

(** [getMillisecondsUntilNextPuzzle()]: [setUTCDate(getUTCDate() + 1)] moves
    the instant by one day, [setUTCHours(0, 0, 0, 0)] goes back to the
    midnight of its UTC day. *)
Definition getMillisecondsUntilNextPuzzle (env : Env) : Z :=
  let now := now env in
  let tomorrow := now + MS_PER_DAY in
  let tomorrow := utcMidnight (isoDate tomorrow) in
  tomorrow - now.

(** [String(n).padStart(2, '0')] for an integer [n]. *)
Definition padStart2 (n : Z) : string :=
  let s := pretty n in
  (if (String.length s <? 2)%nat
   then String.concat "" (replicate (2 - String.length s) "0")
   else "") +:+ s.

(** [formatCountdown(ms)] for an integer [ms]; [%] is the remainder with the
    sign of the dividend. *)
Definition formatCountdown (ms : Z) : string :=
  let totalSeconds := ms / 1000 in
  let hours := totalSeconds / 3600 in
  let minutes := Z.rem totalSeconds 3600 / 60 in
  let seconds := Z.rem totalSeconds 60 in
  padStart2 hours +:+ ":" +:+ padStart2 minutes +:+ ":" +:+ padStart2 seconds.

End DailyPuzzle.


(* ===================================================================== *)
(** ** The useDailyPuzzle hook *)
(* ===================================================================== *)

Module UseDailyPuzzle.
Import DailyPuzzle.

(** The value held by the [stats] state: [useState] starts it from
    [loadStats()], and [recordGuess] later stores there what [completeGame]
    returns, which is the final game state. *)
Inductive StatsValue : Type :=
| OfStats (s : Stats)
| OfGameState (g : GameState).

(** The React state of the hook that the guess transition reads or writes. *)
Record Hook : Type := mkHook {
  gameState : GameState;
  stats : StatsValue
}.

(** The object returned by [recordGuess]. *)
Record GuessResult : Type := mkGuessResult {
  newState : GameState;
  isGameOver : bool;
  won : bool
}.

Definition alreadyCompleted (h : Hook) : bool :=
  bool_decide (gameStatus (gameState h) = Won)
  || bool_decide (gameStatus (gameState h) = Lost).

Definition guessesRemaining (h : Hook) : Z :=
  MAX_GUESSES - Z.of_nat (length (guesses (gameState h))).

(** [recordGuess(playerKey, isCorrect)]: the returned object, the hook state
    after the [set...] calls, and the storage after the writes. *)
Definition recordGuess (playerKey : string) (isCorrect : bool)
    (env : Env) (h : Hook) (ls : Storage) : GuessResult * Hook * Storage :=
  if alreadyCompleted h then
    ({| newState := gameState h;
        isGameOver := true;
        won := bool_decide (gameStatus (gameState h) = Won) |}, h, ls)
  else
    let newGuesses := guesses (gameState h) ++ [playerKey] in
    let isLastGuess := MAX_GUESSES <=? Z.of_nat (length newGuesses) in
    let won := isCorrect in
    let lost := negb isCorrect && isLastGuess in
    let isGameOver := won || lost in
    let newStatus :=
      if won then Won else if lost then Lost else InProgress in
    let newState :=
      {| lastPlayedDate := lastPlayedDate (gameState h);
         lastPuzzleNumber := lastPuzzleNumber (gameState h);
         guesses := newGuesses;
         gameStatus := newStatus;
         modalShown := modalShown (gameState h) |} in
    let ls := saveGameState newState ls in
    let h := {| gameState := newState; stats := stats h |} in
    let '(h, ls) :=
      if isGameOver then
        let '(newStats, ls) := completeGame won env ls in
        ({| gameState := gameState h; stats := OfGameState newStats |}, ls)
      else (h, ls) in
    ({| newState := newState; isGameOver := isGameOver; won := won |}, h, ls).

(** The initial value of the [gameState] state: today's stored game if
    there is one, finished or not, and a freshly initialised game otherwise. *)
Definition initialGameState (env : Env) (ls : Storage) : GameState * Storage :=
  match existingState (canPlayToday env ls) with
  | Some existing => (existing, ls)
  | None => initializeTodayGame env ls
  end.

(** [setModalShown()]. *)
Definition setModalShown (h : Hook) (ls : Storage) : Hook * Storage :=
  let '(updatedState, ls) := markModalShown ls in
  ({| gameState := updatedState; stats := stats h |}, ls).

End UseDailyPuzzle.

(* ===================================================================== *)
(** ** App: the local scoring function *)
(* ===================================================================== *)

Module App.

(** An entry of [all_players.json]. *)
Record Player : Type := mkPlayer {
  id : string;
  fullName : string;
  country : string;
  role : string
}.

(** [puzzle.matchData]; [playersInMatch] may be missing. *)
Record MatchData : Type := mkMatchData {
  playersInMatch : option (list string);
  targetPlayerTeam : string;
  targetPlayerRole : string
}.

Record Puzzle : Type := mkPuzzle {
  puzzleId : Z;
  matchData : MatchData;
  targetPlayer : string
}.

(** The record returned for a scored guess. [fbCountry] and [fbRole] are its
    [country] and [role] fields. *)
Record Feedback : Type := mkFeedback {
  playerName : string;
  fbCountry : string;
  fbRole : string;
  playedInGame : bool;
  sameTeam : bool;
  sameRole : bool;
  isMVP : bool
}.

(** [playersLookup]: [map[player.id] = player] for each player in order, so a
    later player replaces an earlier one with the same id. *)
Definition playersLookup (players : list Player) : gmap string Player :=
  fold_left (fun map player => <[id player := player]> map) players ∅.

(** [findPlayer(playerId)], for keys that are player ids. *)
Definition findPlayer (players : list Player) (playerId : string) : option Player :=
  playersLookup players !! playerId.

(** [a || b] on two values that are objects or absent. *)
Definition orElse {A : Type} (a b : option A) : option A :=
  match a with
  | Some x => Some x
  | None => b
  end.

(** [generateNewFeedback(guessedPlayerKey, puzzleToUse = null)], in a
    component whose catalog is [players] and whose daily puzzle is
    [currentPuzzle]; [None] is the [null] result. *)
Definition generateNewFeedback (players : list Player) (currentPuzzle : option Puzzle)
    (guessedPlayerKey : string) (puzzleToUse : option Puzzle) : option Feedback :=
  match findPlayer players guessedPlayerKey, orElse puzzleToUse currentPuzzle with
  | Some guessedPlayer, Some puzzle =>
      let matchData := matchData puzzle in
      let playersInMatch := default [] (playersInMatch matchData) in
      let targetPlayerTeam := targetPlayerTeam matchData in
      let targetPlayerRole := targetPlayerRole matchData in
      Some {| playerName := fullName guessedPlayer;
              fbCountry := country guessedPlayer;
              fbRole := role guessedPlayer;
              playedInGame := bool_decide (guessedPlayerKey ∈ playersInMatch);
              sameTeam := bool_decide (country guessedPlayer = targetPlayerTeam);
              sameRole := bool_decide (role guessedPlayer = targetPlayerRole);
              isMVP := bool_decide (guessedPlayerKey = targetPlayer puzzle) |}
  | _, _ => None
  end.

End App.

(* ===================================================================== *)
(** ** The useLeaderboard hook *)
(* ===================================================================== *)

Module UseLeaderboard.

(** The object that [submitToLeaderboard] builds and hands to the store. *)
Record Entry : Type := mkEntry {
  discord_user_id : string;
  discord_username : option string;
  discord_avatar : option string;
  guild_id : option string;
  puzzle_date : Z;
  puzzle_number : Z;
  guesses_used : Z;
  won : bool
}.

(** A row of the leaderboard as fetched: the entry and its creation instant
    ([new Date(row.created_at)] in milliseconds). *)
Record Row : Type := mkRow {
  entry : Entry;
  created_at : Z
}.

(** What [submitToLeaderboard] resolves to. *)
Record SubmitResult : Type := mkSubmitResult {
  success : bool;
  duplicate : bool;
  error : option string
}.

(** The arguments of the hook. An absent or empty id or date is falsy. *)
Record Props : Type := mkProps {
  puzzleNumber : Z;
  puzzleDate : option Z;
  discordUserId : option string;
  discordUsername : option string;
  guildId : option string;
  leaderboardMode : string
}.

(** The React state of the hook. *)
Record Hook : Type := mkHook {
  puzzleLeaderboard : list Row;
  userRanking : option Z;
  isSubmitting : bool;
  hasSubmitted : bool;
  hookError : option string
}.

Definition truthy (s : option string) : bool :=
  match s with
  | Some s => negb (bool_decide (s = EmptyString))
  | None => false
  end.

Definition queryGuildId (p : Props) : option string :=
  if bool_decide (leaderboardMode p = "guild"%string) then guildId p else None.

(** The comparator shared by [getTopEntries] and the leaderboard modal. *)
Definition compareRows (a b : Row) : Z :=
  if negb (guesses_used (entry a) =? guesses_used (entry b))
  then guesses_used (entry a) - guesses_used (entry b)
  else created_at a - created_at b.

(** [puzzleLeaderboard.filter(entry => entry.won).sort(...)], the ranked
    order that both call sites then cut with [slice]. *)
Definition rankedRows (rows : list Row) : list Row :=
  JS.sort compareRows (filter (fun r => won (entry r) = true) rows).

(** [getTopEntries(n = 5)]. *)
Definition getTopEntries (h : Hook) (n : Z) : list Row :=
  JS.slice0 (rankedRows (puzzleLeaderboard h)) n.

(** The list shown by [LeaderboardModal]. *)
Definition modalRows (rows : list Row) : list Row :=
  JS.slice0 (rankedRows rows) 20.

(** One turn of the loop of [calculatePercentile]. *)
Definition countBetter (guessesUsed : Z) (won_ : bool) (betterCount : Z) (r : Row) : Z :=
  if won (entry r) && negb won_ then betterCount + 1
  else if won (entry r) && won_ && (guesses_used (entry r) <? guessesUsed)
  then betterCount + 1
  else betterCount.

(** [calculatePercentile(guessesUsed, won)]; [None] is the [null] result. *)
Definition calculatePercentile (h : Hook) (guessesUsed : Z) (won_ : bool)
    : option JS.double :=
  let len := Z.of_nat (length (puzzleLeaderboard h)) in
  if len =? 0 then None
  else
    let betterCount :=
      fold_left (countBetter guessesUsed won_) (puzzleLeaderboard h) 0 in
    Some (JS.Math_round
            (JS.fmul (JS.fdiv (JS.ofZ (len - betterCount)) (JS.ofZ len))
                     (JS.ofZ 100))).

(** The effect that runs when the leaderboard or the user changes: a user
    who has a row on the fetched leaderboard has submitted, and is ranked at
    the position of that row. *)
Definition detectSubmission (p : Props) (h : Hook) : Hook :=
  match discordUserId p with
  | Some userId =>
      if truthy (Some userId) && (0 <? Z.of_nat (length (puzzleLeaderboard h))) then
        match list_find (fun r => discord_user_id (entry r) = userId)
                (puzzleLeaderboard h) with
        | Some (index, existingEntry) =>
            {| puzzleLeaderboard := puzzleLeaderboard h;
               userRanking := Some (Z.of_nat index + 1);
               isSubmitting := isSubmitting h;
               hasSubmitted := true;
               hookError := hookError h |}
        | None => h
        end
      else h
  | None => h
  end.

(** The leaderboard store of [lib/supabase.js] is an outside service; the
    hook is modelled over any implementation of the three calls it makes. *)
Section Store.
Context {Store : Type}.
Context (submitLeaderboardEntry : Entry -> Store -> JS.Completion SubmitResult * Store).
Context (getLeaderboardForPuzzle : Z -> option string -> Store -> JS.Completion (list Row)).
Context (getUserRanking : Z -> string -> option string -> Store -> JS.Completion (option Z)).

(** [fetchPuzzleLeaderboard()], as awaited inside the submission. *)
Definition fetchPuzzleLeaderboard (p : Props) (h : Hook) (db : Store) : Hook :=
  match puzzleDate p with
  | None => h
  | Some date =>
      match getLeaderboardForPuzzle date (queryGuildId p) db with
      | JS.Normal data =>
          {| puzzleLeaderboard := data;
             userRanking := userRanking h;
             isSubmitting := isSubmitting h;
             hasSubmitted := hasSubmitted h;
             hookError := None |}
      | JS.Throw _ =>
          {| puzzleLeaderboard := [];
             userRanking := userRanking h;
             isSubmitting := isSubmitting h;
             hasSubmitted := hasSubmitted h;
             hookError := Some "Failed to load leaderboard"%string |}
      end
  end.

Definition set_isSubmitting (h : Hook) (b : bool) : Hook :=
  {| puzzleLeaderboard := puzzleLeaderboard h;
     userRanking := userRanking h;
     isSubmitting := b;
     hasSubmitted := hasSubmitted h;
     hookError := hookError h |}.

(** [submitToLeaderboard(guessesUsed, won)]: the resolved value, the entry
    handed to the store (if the call got that far), the hook state and the
    store afterwards. *)
Definition submitToLeaderboard (p : Props) (guessesUsed : Z) (won_ : bool)
    (h : Hook) (db : Store) : SubmitResult * option Entry * Hook * Store :=
  match discordUserId p, puzzleDate p with
  | Some userId, Some date =>
      if negb (truthy (Some userId)) || isSubmitting h || hasSubmitted h then
        ({| success := false; duplicate := false;
            error := Some "Invalid submission state"%string |}, None, h, db)
      else
        let entry :=
          {| discord_user_id := userId;
             discord_username := discordUsername p;
             discord_avatar := None;
             guild_id := guildId p;
             puzzle_date := date;
             puzzle_number := puzzleNumber p;
             guesses_used := if won_ then guessesUsed else 5;
             won := won_ |} in
        let h :=
          {| puzzleLeaderboard := puzzleLeaderboard h;
             userRanking := userRanking h;
             isSubmitting := true;
             hasSubmitted := hasSubmitted h;
             hookError := None |} in
        match submitLeaderboardEntry entry db with
        | (JS.Normal result, db) =>
            if success result then
              let h :=
                {| puzzleLeaderboard := puzzleLeaderboard h;
                   userRanking := userRanking h;
                   isSubmitting := isSubmitting h;
                   hasSubmitted := true;
                   hookError := hookError h |} in
              let h := fetchPuzzleLeaderboard p h db in
              match getUserRanking date userId (queryGuildId p) db with
              | JS.Normal ranking =>
                  let h :=
                    {| puzzleLeaderboard := puzzleLeaderboard h;
                       userRanking := ranking;
                       isSubmitting := isSubmitting h;
                       hasSubmitted := hasSubmitted h;
                       hookError := hookError h |} in
                  (result, Some entry, set_isSubmitting h false, db)
              | JS.Throw msg =>
                  let h :=
                    {| puzzleLeaderboard := puzzleLeaderboard h;
                       userRanking := userRanking h;
                       isSubmitting := false;
                       hasSubmitted := hasSubmitted h;
                       hookError := Some "Failed to submit to leaderboard"%string |} in
                  ({| success := false; duplicate := false; error := Some msg |},
                   Some entry, h, db)
              end
            else (result, Some entry, set_isSubmitting h false, db)
        | (JS.Throw msg, db) =>
            let h :=
              {| puzzleLeaderboard := puzzleLeaderboard h;
                 userRanking := userRanking h;
                 isSubmitting := false;
                 hasSubmitted := hasSubmitted h;
                 hookError := Some "Failed to submit to leaderboard"%string |} in
            ({| success := false; duplicate := false; error := Some msg |},
             Some entry, h, db)
        end
  | _, _ =>
      ({| success := false; duplicate := false;
          error := Some "Invalid submission state"%string |}, None, h, db)
  end.

End Store.

End UseLeaderboard.

(* ===================================================================== *)
(** ** The store client (lib/supabase.js, found in src/lib/discord.jsx) *)
(* ===================================================================== *)

Module Supabase.

(** A row as [getAllTimeLeaderboard] selects it. [entry_user_id] is absent
    on the rows of the players without a Discord identity. *)
Record StatRow : Type := mkStatRow {
  entry_username : option string;
  entry_user_id : option string;
  entry_avatar : option string;
  entry_won : bool;
  entry_guesses_used : Z
}.

(** A value of the [playerStats] object. *)
Record PlayerStat : Type := mkPlayerStat {
  discord_user_id : string;
  discord_username : option string;
  discord_avatar : option string;
  games_played : Z;
  total_wins : Z;
  total_guesses : Z
}.

(** [playerStats[id].games_played++] and the two updates on a win. *)
Definition count (stat : PlayerStat) (row : StatRow) : PlayerStat :=
  {| discord_user_id := discord_user_id stat;
     discord_username := discord_username stat;
     discord_avatar := discord_avatar stat;
     games_played := games_played stat + 1;
     total_wins := if entry_won row then total_wins stat + 1 else total_wins stat;
     total_guesses := if entry_won row then total_guesses stat + entry_guesses_used row
                      else total_guesses stat |}.

(** The names that an object literal inherits from [Object.prototype]:
    under these [playerStats[id]] is never missing. *)
Definition objectPrototypeKeys : list string :=
  [ "constructor"; "hasOwnProperty"; "isPrototypeOf"; "propertyIsEnumerable";
    "toLocaleString"; "toString"; "valueOf"; "__proto__"; "__defineGetter__";
    "__defineSetter__"; "__lookupGetter__"; "__lookupSetter__" ]%string.

(** The [playerStats] object as the list of its values in the order in which
    the keys were created (user ids are not array indices). One turn of the
    [forEach] for a row of user [id]: the value under [id] is created if it
    is missing, then counted up. Under an inherited name nothing is missing:
    no value is created and the counts go to the inherited object. *)
Fixpoint tally (id : string) (row : StatRow) (playerStats : list PlayerStat)
    : list PlayerStat :=
  match playerStats with
  | [] =>
      if bool_decide (id ∈ objectPrototypeKeys) then []
      else
      [count {| discord_user_id := id;
                discord_username := entry_username row;
                discord_avatar := entry_avatar row;
                games_played := 0;
                total_wins := 0;
                total_guesses := 0 |} row]
  | stat :: rest =>
      if bool_decide (discord_user_id stat = id) then count stat row :: rest
      else stat :: tally id row rest
  end.

(** The whole [forEach]: rows without a user id are skipped. *)
Definition playerStatsOf (data : list StatRow) : list PlayerStat :=
  fold_left
    (fun playerStats row =>
       match entry_user_id row with
       | Some id => if bool_decide (id = EmptyString) then playerStats
                    else tally id row playerStats
       | None => playerStats
       end)
    data [].

(** The average used to break ties: [total_guesses / total_wins], or 5
    without a win. *)
Definition average (stat : PlayerStat) : JS.double :=
  if 0 <? total_wins stat
  then JS.fdiv (JS.ofZ (total_guesses stat)) (JS.ofZ (total_wins stat))
  else JS.ofZ 5.

(** The comparator of the all-time leaderboard. *)
Definition compareStats (a b : PlayerStat) : Z :=
  if negb (total_wins b =? total_wins a) then total_wins b - total_wins a
  else JS.signOfDifference (average a) (average b).

(** [getAllTimeLeaderboard] after its query: the aggregation of the rows
    that the query delivered, sorted. *)
Definition allTimeLeaderboardOf (data : list StatRow) : list PlayerStat :=
  JS.sort compareStats (playerStatsOf data).

(** [getUserRanking] after its query. [None] as argument stands for a query
    that failed or delivered nothing, [None] as result for [null]. *)
Definition userRankingOf (result : option (list UseLeaderboard.Row)) (discordUserId : string)
    : option Z :=
  match result with
  | None => None
  | Some data =>
      match list_find (fun r => UseLeaderboard.discord_user_id (UseLeaderboard.entry r)
                                = discordUserId) data with
      | Some (index, _) => Some (Z.of_nat index + 1)
      | None => None
      end
  end.

End Supabase.

(* ===================================================================== *)
(** ** src/components/community/LeaderboardModal.jsx: the preview *)
(* ===================================================================== *)

Module LeaderboardPreview.
Import UseLeaderboard.

(** The rows shown by [LeaderboardPreview]: the first three winners, and for
    a user ranked below third the window of winners around that rank. *)
Definition winners (entries : list Row) : list Row := rankedRows entries.

Definition top3 (entries : list Row) : list Row := JS.slice (winners entries) 0 3.

Definition surrounding (entries : list Row) (userRanking : option Z) : list Row :=
  match userRanking with
  | Some ranking =>
      if negb (ranking =? 0) && (3 <? ranking) then
        let startIdx := Z.max 3 (ranking - 2) in
        let endIdx := Z.min (Z.of_nat (length (winners entries))) (ranking + 1) in
        JS.slice (winners entries) (startIdx - 1) endIdx
      else []
  | None => []
  end.

End LeaderboardPreview.

(* ===================================================================== *)
(** ** src/components/ArchiveModal.jsx *)
(* ===================================================================== *)

Module ArchiveModal.
Import DailyPuzzle.

Record ArchiveItem : Type := mkArchiveItem {
  puzzle_date : Z;
  puzzle_number : Z
}.

(** The [while (current < today)] loop of [generateLocalArchive], with a
    bound on the number of turns; [None] when the bound is reached before the
    loop condition fails. *)
Fixpoint archiveLoop (env : Env) (fuel : nat) (today current : Z)
    (archive : list ArchiveItem) : option (list ArchiveItem) :=
  if current <? today then
    match fuel with
    | O => None
    | S fuel' =>
        let dateStr := isoDate current in
        let puzzleNumber := getPuzzleNumber dateStr in
        archiveLoop env fuel' today (addDays env current 1)
          (archive ++ [{| puzzle_date := dateStr; puzzle_number := puzzleNumber |}])
    end
  else Some archive.

(** A number of turns that is enough for the loop to end by its condition
    when each turn moves [current] by a whole day. *)
Definition archiveFuel (today : Z) : nat :=
  Z.to_nat (today / MS_PER_DAY - EPOCH_DATE).

(** [generateLocalArchive()]; [today = new Date()] is the instant [now]. *)
Definition generateLocalArchive (env : Env) : option (list ArchiveItem) :=
  let today := now env in
  let epoch := utcMidnight EPOCH_DATE in
  let current := addDays env epoch 1 in
  reverse <$> archiveLoop env (archiveFuel today) today current [].

(** The two marks of a completed archive puzzle, ['won'] and ['lost']. *)
Inductive ArchiveResult : Type := ArchiveWon | ArchiveLost.

(** The object kept under the key ['bowldem_archive_completed']: a mark per
    puzzle date. The key [None] is the one a [null] date is filed under. *)
Abbreviation Completed := (gmap (option Z) ArchiveResult).

(** [loadArchiveCompleted()], from the content of that key. *)
Definition loadArchiveCompleted (slot : option Completed) : Completed :=
  match slot with
  | Some stored => stored
  | None => ∅
  end.

(** [saveArchiveCompletion(puzzleDate, result)]: the content of the key
    afterwards. *)
Definition saveArchiveCompletion (puzzleDate : option Z) (result : ArchiveResult)
    (slot : option Completed) : option Completed :=
  let completed := loadArchiveCompleted slot in
  Some (<[puzzleDate := result]> completed).

End ArchiveModal.


(* ===================================================================== *)
(** ** App: the guess handlers *)
(* ===================================================================== *)

Module AppPlay.
Import DailyPuzzle App.

Definition USE_SUPABASE_VALIDATION : bool := true.

(** The component state that the guess handlers read or write. The states
    that only drive the display (pending feedback, flip index, modals) and
    their timers are left out. *)
Record Game : Type := mkGame {
  feedbackList : list Feedback;
  usedPlayers : gset string;
  gameWon : bool;
  gameOver : bool;
  isChecking : bool;
  archivePuzzle : option Puzzle;
  archivePuzzleDate : option Z;
  archiveFeedbackList : list Feedback;
  archiveUsedPlayers : gset string;
  archiveGameWon : bool;
  archiveGameOver : bool
}.

(** What the validation service resolves to: an object that carries the
    feedback fields and possibly an [error]. *)
Record Validation : Type := mkValidation {
  validationError : option string;
  validationFeedback : Feedback
}.

Definition truthy (s : option string) : bool :=
  match s with
  | Some s => negb (bool_decide (s = EmptyString))
  | None => false
  end.

(** [priorityPlayerIds]: the ids listed in some puzzle, and the targets. *)
Definition priorityPlayerIds (puzzles : list Puzzle) : gset string :=
  fold_left
    (fun ids puzzle =>
       let playersInMatch := default [] (playersInMatch (matchData puzzle)) in
       let ids := fold_left (fun ids id => {[id]} ∪ ids) playersInMatch ids in
       if negb (bool_decide (targetPlayer puzzle = EmptyString))
       then {[targetPlayer puzzle]} ∪ ids else ids)
    puzzles ∅.

(** The feedback list rebuilt from the stored guesses when the component
    loads: [guesses.map(generateNewFeedback).filter(Boolean)]. *)
Definition rebuiltFeedback (players : list Player) (currentPuzzle : option Puzzle)
    (guesses : list string) : list Feedback :=
  omap (fun playerKey => generateNewFeedback players currentPuzzle playerKey None) guesses.

Section Handlers.
Context (validateGuess : Z -> string -> JS.Completion (option Validation)).
Context (players : list Player) (currentPuzzle : option Puzzle).

(** The feedback that [handlePlayerGuess] settles on: the service's answer
    when the puzzle has an id (a number, so not 0) and the call delivers an
    object without [error], the local scoring in every other case. *)
Definition scoreGuess (playerKey : string) : option Feedback :=
  let local := generateNewFeedback players currentPuzzle playerKey None in
  match currentPuzzle with
  | Some puzzle =>
      if USE_SUPABASE_VALIDATION && negb (puzzleId puzzle =? 0) then
        match validateGuess (puzzleId puzzle) playerKey with
        | JS.Normal (Some answer) =>
            if truthy (validationError answer) then local
            else Some (validationFeedback answer)
        | JS.Normal None => local
        | JS.Throw _ => local
        end
      else local
  | None => local
  end.

(** [handlePlayerGuess(playerKey)] together with its 300 ms timer callback,
    no other event in between: the component state, the hook state and the
    storage afterwards. *)
Definition handlePlayerGuess (env : Env) (playerKey : string)
    (g : Game) (h : UseDailyPuzzle.Hook) (ls : Storage)
    : Game * UseDailyPuzzle.Hook * Storage :=
  if gameWon g || gameOver g || bool_decide (playerKey ∈ usedPlayers g)
     || UseDailyPuzzle.alreadyCompleted h || isChecking g
  then (g, h, ls)
  else
    let used := {[playerKey]} ∪ usedPlayers g in
    match scoreGuess playerKey with
    | None =>
        ({| feedbackList := feedbackList g;
            usedPlayers := used;
            gameWon := gameWon g;
            gameOver := gameOver g;
            isChecking := false;
            archivePuzzle := archivePuzzle g;
            archivePuzzleDate := archivePuzzleDate g;
            archiveFeedbackList := archiveFeedbackList g;
            archiveUsedPlayers := archiveUsedPlayers g;
            archiveGameWon := archiveGameWon g;
            archiveGameOver := archiveGameOver g |}, h, ls)
    | Some feedback =>
        let isWin := isMVP feedback in
        let out := UseDailyPuzzle.recordGuess playerKey isWin env h ls in
        let newFeedbackList := feedbackList g ++ [feedback] in
        let full := MAX_GUESSES <=? Z.of_nat (length newFeedbackList) in
        ({| feedbackList := newFeedbackList;
            usedPlayers := used;
            gameWon := if isWin then true else gameWon g;
            gameOver := if isWin then gameOver g
                        else if full then true else gameOver g;
            isChecking := false;
            archivePuzzle := archivePuzzle g;
            archivePuzzleDate := archivePuzzleDate g;
            archiveFeedbackList := archiveFeedbackList g;
            archiveUsedPlayers := archiveUsedPlayers g;
            archiveGameWon := archiveGameWon g;
            archiveGameOver := archiveGameOver g |}, out.1.2, out.2)
    end.

(** [handleArchiveGuess(playerKey)] together with its timer callback: the
    component state and the content of the archive key afterwards. *)
Definition handleArchiveGuess (playerKey : string) (g : Game)
    (slot : option ArchiveModal.Completed) : Game * option ArchiveModal.Completed :=
  if archiveGameWon g || archiveGameOver g
     || bool_decide (playerKey ∈ archiveUsedPlayers g) || isChecking g
  then (g, slot)
  else
    let used := {[playerKey]} ∪ archiveUsedPlayers g in
    match generateNewFeedback players currentPuzzle playerKey (archivePuzzle g) with
    | None =>
        ({| feedbackList := feedbackList g;
            usedPlayers := usedPlayers g;
            gameWon := gameWon g;
            gameOver := gameOver g;
            isChecking := false;
            archivePuzzle := archivePuzzle g;
            archivePuzzleDate := archivePuzzleDate g;
            archiveFeedbackList := archiveFeedbackList g;
            archiveUsedPlayers := used;
            archiveGameWon := archiveGameWon g;
            archiveGameOver := archiveGameOver g |}, slot)
    | Some feedback =>
        let isWin := isMVP feedback in
        let newFeedback := archiveFeedbackList g ++ [feedback] in
        let isLastGuess := MAX_GUESSES <=? Z.of_nat (length newFeedback) in
        ({| feedbackList := feedbackList g;
            usedPlayers := usedPlayers g;
            gameWon := gameWon g;
            gameOver := gameOver g;
            isChecking := false;
            archivePuzzle := archivePuzzle g;
            archivePuzzleDate := archivePuzzleDate g;
            archiveFeedbackList := newFeedback;
            archiveUsedPlayers := used;
            archiveGameWon := if isWin then true else archiveGameWon g;
            archiveGameOver := if isWin then archiveGameOver g
                               else if isLastGuess then true else archiveGameOver g |},
         if isWin then
           ArchiveModal.saveArchiveCompletion (archivePuzzleDate g) ArchiveModal.ArchiveWon slot
         else if isLastGuess then
           ArchiveModal.saveArchiveCompletion (archivePuzzleDate g) ArchiveModal.ArchiveLost slot
         else slot)
    end.

End Handlers.

End AppPlay.

(* ===================================================================== *)
(** * Vocabulary of the properties, and sample data *)
(* ===================================================================== *)

Section ScoringTerms.
Import App.

(** A one-player catalog and a puzzle whose data agree with it. *)
Definition kohli : Player :=
  {| id := "kohli"; fullName := "Virat Kohli"; country := "India"; role := "Batsman" |}.

Definition final2024 : Puzzle :=
  {| puzzleId := 1;
     matchData := {| playersInMatch := Some ["kohli"; "bumrah"]%string;
                     targetPlayerTeam := "India";
                     targetPlayerRole := "Batsman" |};
     targetPlayer := "kohli" |}.

(** A puzzle record whose target is not listed among its participants and
    whose target team and role differ from the target's catalog entry. *)
Definition mislabelled : Puzzle :=
  {| puzzleId := 2;
     matchData := {| playersInMatch := Some ["bumrah"]%string;
                     targetPlayerTeam := "Australia";
                     targetPlayerRole := "Bowler" |};
     targetPlayer := "kohli" |}.

(** The puzzle data agree with the catalog about the target: the target is
    listed among the participants, and the target's catalog entry carries the
    puzzle's target team and role. *)
Definition targetConsistent (players : list Player) (puzzle : Puzzle) : Prop :=
  targetPlayer puzzle ∈ default [] (playersInMatch (matchData puzzle))
  /\ forall p, findPlayer players (targetPlayer puzzle) = Some p ->
       country p = targetPlayerTeam (matchData puzzle)
       /\ role p = targetPlayerRole (matchData puzzle).

End ScoringTerms.

Section SelectionTerms.
Import DailyPuzzle.

(** The host zone is of constant offset: clocks never change there. *)
Definition fixedOffset (env : Env) : Prop :=
  exists c, forall t isUTC, localTZA env t isUTC = c.

(** Hosts on UTC, and on central European time in the autumn of 2026: two
    hours ahead of UTC until 2026-10-25T01:00:00Z, when the clocks go back
    from 03:00 to 02:00, and one hour ahead from then on. *)
Definition utcZone (t : Z) (isUTC : bool) : Z := 0.

Definition clocksGoBack : Z := 20751 * MS_PER_DAY + 3600000.

Definition centralEurope (t : Z) (isUTC : bool) : Z :=
  if isUTC then (if t <? clocksGoBack then 7200000 else 3600000)
  else (if t <? clocksGoBack + 7200000 then 7200000 else 3600000).

(** 2026-01-15T12:00:00Z, noon on the day of the epoch, on a UTC host. *)
Definition launchNoon : Env :=
  {| now := 1768478400000; debugParam := false; localTZA := utcZone |}.

(** The storage of a first visit. *)
Definition emptyStorage : Storage :=
  {| slot_STATS := None; slot_STATE := None; slot_DEBUG_OFFSET := None |}.

End SelectionTerms.

Section TransitionTerms.
Import DailyPuzzle UseDailyPuzzle.

(** Today's game before the first guess, as [initializeTodayGame] writes it. *)
Definition fresh : GameState :=
  {| lastPlayedDate := Some 20468; lastPuzzleNumber := Some 0; guesses := [];
     gameStatus := InProgress; modalShown := None |}.

Definition freshHook : Hook :=
  {| gameState := fresh; stats := OfStats getDefaultStats |}.

(** The feedback of a guess that is the target, and of one that is not. *)
Definition hit : App.Feedback :=
  App.mkFeedback "Virat Kohli" "India" "Batsman" true true true true.

Definition miss : App.Feedback :=
  App.mkFeedback "Jasprit Bumrah" "India" "Bowler" true true false false.

(** Four misses so far: the fifth guess decides the game. *)
Definition lastChance : Hook :=
  {| gameState := with_guesses fresh ["a"; "b"; "c"; "d"]%string;
     stats := OfStats getDefaultStats |}.

(** A game won with the second guess. *)
Definition solved : GameState :=
  {| lastPlayedDate := Some 20468; lastPuzzleNumber := Some 0;
     guesses := ["bumrah"; "kohli"]%string;
     gameStatus := Won; modalShown := Some true |}.

End TransitionTerms.

Section StatisticsTerms.
Import DailyPuzzle.

(** Clocks at noon on the days after the epoch, on a UTC host. *)
Definition noonAfter (days : Z) : Env :=
  {| now := now launchNoon + days * MS_PER_DAY; debugParam := false;
     localTZA := utcZone |}.

(** Noon on 2026-10-26, the day after the clocks went back, on a central
    European host. *)
Definition dayAfterChange : Env :=
  {| now := 20752 * MS_PER_DAY + 43200000; debugParam := false;
     localTZA := centralEurope |}.

(** Statistics of a player on a streak of three whose last win was on
    2026-10-25. *)
Definition onStreak : Storage :=
  {| slot_STATS := Some {| gamesPlayed := 10; gamesWon := 7; currentStreak := 3;
                           maxStreak := 4;
                           guessDistribution := [Some 1; Some 2; Some 3; Some 1; Some 0];
                           lastWinDate := Some 20751 |};
     slot_STATE := None; slot_DEBUG_OFFSET := None |}.

End StatisticsTerms.

Section RankingTerms.
Import UseLeaderboard.

(** The order of the leaderboard: fewer guesses first, and at equal guesses
    the earlier submission first. *)
Definition ranksBefore (a b : Row) : Prop :=
  guesses_used (entry a) < guesses_used (entry b)
  \/ (guesses_used (entry a) = guesses_used (entry b)
      /\ created_at a <= created_at b).

End RankingTerms.

Section PercentileTerms.
Import UseLeaderboard.

(** A row did better than the result [(guessesUsed, won_)]: against a loss,
    any winning row; against a win, a winning row with strictly fewer
    guesses. *)
Definition didBetter (guessesUsed : Z) (won_ : bool) (r : Row) : bool :=
  if won_ then won (entry r) && (guesses_used (entry r) <? guessesUsed)
  else won (entry r).

(** The count of such rows, as a filter. *)
Definition betterCountOf (guessesUsed : Z) (won_ : bool) (rows : list Row) : Z :=
  Z.of_nat (length (filter (fun r => didBetter guessesUsed won_ r = true) rows)).

(** The hook before any row was fetched. *)
Definition noRows : Hook :=
  {| puzzleLeaderboard := []; userRanking := None; isSubmitting := false;
     hasSubmitted := false; hookError := None |}.

(** A leaderboard row of the epoch's puzzle, and the hook holding given rows. *)
Definition row (user : string) (guesses : Z) (won_ : bool) (at_ : Z) : Row :=
  {| entry := {| discord_user_id := user; discord_username := Some user;
                 discord_avatar := None; guild_id := None;
                 puzzle_date := 20468; puzzle_number := 0;
                 guesses_used := guesses; won := won_ |};
     created_at := at_ |}.

Definition board (rows : list Row) : Hook :=
  {| puzzleLeaderboard := rows; userRanking := None; isSubmitting := false;
     hasSubmitted := false; hookError := None |}.

End PercentileTerms.

Section ArchiveTerms.
Import DailyPuzzle ArchiveModal.

(** The item listed for a date. *)
Definition itemOf (date : Z) : ArchiveItem :=
  {| puzzle_date := date; puzzle_number := getPuzzleNumber date |}.

(** The latest date whose UTC midnight is strictly before the instant
    [today]: the date of the millisecond before it. *)
Definition lastListed (today : Z) : Z := isoDate (today - 1).

(** A UTC host at the instant [t]. *)
Definition utcHost (t : Z) : Env :=
  {| now := t; debugParam := false; localTZA := utcZone |}.

(** Midnight at the start of 2026-01-17, two days after the epoch. *)
Definition secondMidnight : Env := utcHost (utcMidnight (EPOCH_DATE + 2)).

(** Noon of the same day. *)
Definition secondNoon : Env := utcHost (utcMidnight (EPOCH_DATE + 2) + 43200000).

(** The listing the claim describes: the dates from the epoch date up to,
    and not including, the current date, newest first. *)
Definition archiveAsClaimed (today : Z) : list ArchiveItem :=
  itemOf <$> reverse (seqZ EPOCH_DATE (isoDate today - EPOCH_DATE)).

End ArchiveTerms.

Section SubmissionTerms.
Import UseLeaderboard.

(** A stand-in store kept as a list of rows: a second entry of the same user
    for the same date is refused as a duplicate, any other entry is appended
    with the instant [0] as creation time. *)
Definition listSubmit (e : Entry) (db : list Row) : JS.Completion SubmitResult * list Row :=
  if bool_decide (Exists (fun r => discord_user_id (entry r) = discord_user_id e
                                   /\ puzzle_date (entry r) = puzzle_date e) db)
  then (JS.Normal {| success := false; duplicate := true; error := None |}, db)
  else (JS.Normal {| success := true; duplicate := false; error := None |},
        db ++ [{| entry := e; created_at := 0 |}]).

Definition listFetch (date : Z) (guild : option string) (db : list Row)
    : JS.Completion (list Row) :=
  JS.Normal (filter (fun r => puzzle_date (entry r) = date
                              /\ (guild = None \/ guild_id (entry r) = guild)) db).

Definition listRanking (date : Z) (user : string) (guild : option string)
    (db : list Row) : JS.Completion (option Z) :=
  JS.Normal None.

(** The hook arguments of a signed-in player, and the entry of their loss. *)
Definition player1 : Props :=
  {| puzzleNumber := 0; puzzleDate := Some 20468;
     discordUserId := Some "1001"%string; discordUsername := Some "striker"%string;
     guildId := Some "g1"%string; leaderboardMode := "guild" |}.

Definition lossEntry : Entry :=
  {| discord_user_id := "1001"; discord_username := Some "striker"%string;
     discord_avatar := None; guild_id := Some "g1"%string;
     puzzle_date := 20468; puzzle_number := 0; guesses_used := 5; won := false |}.

End SubmissionTerms.

Section PlayTerms.
Import DailyPuzzle UseDailyPuzzle.

(** A run of guesses, each with the verdict of its scoring, through
    [recordGuess]; the hook state and the storage are threaded along. *)
Definition playAll (env : Env) (turns : list (string * bool)) (h : Hook) (ls : Storage)
    : Hook * Storage :=
  fold_left
    (fun acc turn =>
       let out := recordGuess turn.1 turn.2 env acc.1 acc.2 in (out.1.2, out.2))
    turns (h, ls).

End PlayTerms.

Section TodayTerms.
Import DailyPuzzle UseDailyPuzzle.

(** The guesses of a run through [recordGuess] of [dailyPuzzle.js]. *)
Definition recordAll (playerKeys : list string) (ls : Storage) : Storage :=
  fold_left (fun ls playerKey => (DailyPuzzle.recordGuess playerKey ls).2) playerKeys ls.

(** A game state is consistent with the rules: at most [MAX_GUESSES] guesses;
    fewer while the game is open; exactly that many when lost; at least one
    when won. *)
Definition consistent (state : GameState) : Prop :=
  let k := Z.of_nat (length (guesses state)) in
  k <= MAX_GUESSES
  /\ (gameStatus state = NotStarted \/ gameStatus state = InProgress -> k < MAX_GUESSES)
  /\ (gameStatus state = Lost -> k = MAX_GUESSES)
  /\ (gameStatus state = Won -> 1 <= k).

(** Counters that make sense: wins among the games played, the current
    streak within the longest one. *)
Definition statsOk (stats : Stats) : Prop :=
  0 <= gamesWon stats <= gamesPlayed stats
  /\ 0 <= currentStreak stats <= maxStreak stats.

(** A storage holding a game of the epoch day, lost after five guesses, and
    the statistics after it. *)
Definition lostOnLaunch : Storage :=
  {| slot_STATS := Some {| gamesPlayed := 1; gamesWon := 0; currentStreak := 0;
                           maxStreak := 0;
                           guessDistribution := [Some 0; Some 0; Some 0; Some 0; Some 0];
                           lastWinDate := None |};
     slot_STATE := Some {| lastPlayedDate := Some 20468; lastPuzzleNumber := Some 0;
                           guesses := ["a"; "b"; "c"; "d"; "e"]%string;
                           gameStatus := Lost; modalShown := Some true |};
     slot_DEBUG_OFFSET := None |}.

(** A storage holding an unfinished game of the epoch day. *)
Definition midGame : Storage :=
  {| slot_STATS := None;
     slot_STATE := Some {| lastPlayedDate := Some 20468; lastPuzzleNumber := Some 0;
                           guesses := ["a"; "b"]%string;
                           gameStatus := InProgress; modalShown := None |};
     slot_DEBUG_OFFSET := None |}.

(** The same clock as [launchNoon] with [?debug=true] in the URL. *)
Definition debugNoon : Env :=
  {| now := 1768478400000; debugParam := true; localTZA := utcZone |}.

End TodayTerms.

Section HandlerTerms.
Import DailyPuzzle App AppPlay.

(** The daily game accepts a guess of [playerKey]: it is not over, the
    player was not tried before, and no guess is being checked. *)
Definition accepting (g : Game) (h : UseDailyPuzzle.Hook) (playerKey : string) : Prop :=
  gameWon g = false /\ gameOver g = false /\ (playerKey ∉ usedPlayers g)
  /\ UseDailyPuzzle.alreadyCompleted h = false /\ isChecking g = false.

(** The same for the archive game. *)
Definition archiveAccepting (g : Game) (playerKey : string) : Prop :=
  archiveGameWon g = false /\ archiveGameOver g = false
  /\ (playerKey ∉ archiveUsedPlayers g) /\ isChecking g = false.

(** A validation service that is down, and one that answers that every guess
    is the target. *)
Definition serviceDown (puzzleId : Z) (playerKey : string)
    : JS.Completion (option Validation) :=
  JS.Throw "fetch failed".

Definition serviceYes (puzzleId : Z) (playerKey : string)
    : JS.Completion (option Validation) :=
  JS.Normal (Some {| validationError := None;
                     validationFeedback :=
                       mkFeedback playerKey "" "" true true true true |}).

(** The component before the first guess. *)
Definition newGame : Game :=
  {| feedbackList := []; usedPlayers := ∅; gameWon := false; gameOver := false;
     isChecking := false; archivePuzzle := None; archivePuzzleDate := None;
     archiveFeedbackList := []; archiveUsedPlayers := ∅;
     archiveGameWon := false; archiveGameOver := false |}.

(** The component replaying the puzzle of 2026-01-16 from the archive. *)
Definition replaying : Game :=
  {| feedbackList := []; usedPlayers := ∅; gameWon := false; gameOver := false;
     isChecking := false; archivePuzzle := Some final2024;
     archivePuzzleDate := Some 20469;
     archiveFeedbackList := []; archiveUsedPlayers := ∅;
     archiveGameWon := false; archiveGameOver := false |}.

End HandlerTerms.

Section StoreTerms.
Import Supabase.

(** The rows of a user among the rows delivered. *)
Definition rowsOf (id : string) (data : list StatRow) : list StatRow :=
  filter (fun row => entry_user_id row = Some id) data.

(** What the rows of a user amount to: the games, the wins, and the guesses
    of the wins. *)
Definition gamesOf (id : string) (data : list StatRow) : Z :=
  Z.of_nat (length (rowsOf id data)).

Definition winsOf (id : string) (data : list StatRow) : Z :=
  Z.of_nat (length (filter (fun row => entry_won row = true) (rowsOf id data))).

Definition guessesOf (id : string) (data : list StatRow) : Z :=
  foldr Z.add 0
    (entry_guesses_used <$> filter (fun row => entry_won row = true) (rowsOf id data)).

(** The ids under which [playerStats] gets a value: the empty id is
    skipped, and an inherited name never becomes a key. *)
Definition counted (id : string) : Prop :=
  id <> EmptyString /\ id ∉ objectPrototypeKeys.

(** A value of [playerStats] sums up the rows of its user. *)
Definition sumsUp (data : list StatRow) (stat : PlayerStat) : Prop :=
  counted (discord_user_id stat)
  /\ rowsOf (discord_user_id stat) data <> []
  /\ games_played stat = gamesOf (discord_user_id stat) data
  /\ total_wins stat = winsOf (discord_user_id stat) data
  /\ total_guesses stat = guessesOf (discord_user_id stat) data
  /\ Some (discord_username stat)
     = entry_username <$> head (rowsOf (discord_user_id stat) data).

(** Three players over four rows, a row without a Discord identity, and a
    row under an inherited name. *)
Definition seasonRows : list StatRow :=
  [ mkStatRow (Some "ann"%string) (Some "u1"%string) None true 3;
    mkStatRow (Some "bob"%string) (Some "u2"%string) None false 5;
    mkStatRow (Some "web"%string) None None true 1;
    mkStatRow (Some "ann2"%string) (Some "u1"%string) None true 2;
    mkStatRow (Some "cy"%string) (Some "u3"%string) None true 4;
    mkStatRow (Some "obj"%string) (Some "constructor"%string) None true 1 ].

End StoreTerms.

Section BoardTerms.
Import UseLeaderboard.

(** The rows of a user. *)
Definition rowOf (userId : string) (r : Row) : Prop :=
  discord_user_id (entry r) = userId.

#[global] Instance rowOf_dec (userId : string) (r : Row) : Decision (rowOf userId r).
Proof. unfold rowOf. apply _. Defined.

(** A leaderboard in the order of the query, fewest guesses first, on which
    a loss (filed with 5 guesses) was submitted before a win in 5 guesses. *)
Definition lateWinner : list Row :=
  [ row "ann" 2 true 100; row "bob" 5 false 200; row "cy" 5 true 300 ].

(** Six winners in ranked order. *)
Definition sixWinners : list Row :=
  [ row "a" 1 true 1; row "b" 2 true 2; row "c" 3 true 3;
    row "d" 3 true 4; row "e" 4 true 5; row "f" 5 true 6 ].

(** The hook arguments of user [cy]. *)
Definition playerCy : Props :=
  {| puzzleNumber := 0; puzzleDate := Some 20468;
     discordUserId := Some "cy"%string; discordUsername := Some "cy"%string;
     guildId := None; leaderboardMode := "global" |}.

End BoardTerms.

(* ===================================================================== *)
(** * Properties *)
(* ===================================================================== *)

(** ** Scoring *)

Section Scoring.
Import App.

(** Every binding of the lookup table is filed under the id of its player. *)
Lemma playersLookup_id (players : list Player) (key : string) (p : Player) :
  playersLookup players !! key = Some p -> id p = key.
Proof.
  unfold playersLookup.
  assert (G : forall (acc : gmap string Player),
             (forall k q, acc !! k = Some q -> id q = k) ->
             fold_left (fun map player => <[id player := player]> map) players acc
               !! key = Some p -> id p = key).
  { induction players as [|q players IH]; intros acc Hacc; simpl.
    - apply Hacc.
    - apply IH. intros k r.
      destruct (decide (id q = k)) as [<-|Hne].
      + rewrite lookup_insert_eq. congruence.
      + rewrite lookup_insert_ne by done. apply Hacc. }
  apply G. intros k q. rewrite lookup_empty. discriminate.
Qed.

Lemma findPlayer_id (players : list Player) (key : string) (p : Player) :
  findPlayer players key = Some p -> id p = key.
Proof. apply playersLookup_id. Qed.

(** C1. For a guessed key that the catalog resolves to a candidate, and the
    puzzle in play, [generateNewFeedback] returns a feedback record in which
    [playedInGame] is true exactly when the candidate's id is among the
    puzzle's [playersInMatch], [sameTeam] exactly when the candidate's country
    equals [targetPlayerTeam], [sameRole] exactly when the candidate's role
    equals [targetPlayerRole], and [isMVP] exactly when the candidate's id is
    [targetPlayer]: each of the four is a plain equality test. *)
Theorem generateNewFeedback_exact
    (players : list Player) (currentPuzzle puzzleToUse : option Puzzle)
    (key : string) (candidate : Player) (puzzle : Puzzle) :
  findPlayer players key = Some candidate ->
  orElse puzzleToUse currentPuzzle = Some puzzle ->
  exists fb,
    generateNewFeedback players currentPuzzle key puzzleToUse = Some fb
    /\ id candidate = key
    /\ (playedInGame fb = true
        <-> id candidate ∈ default [] (playersInMatch (matchData puzzle)))
    /\ (sameTeam fb = true
        <-> country candidate = targetPlayerTeam (matchData puzzle))
    /\ (sameRole fb = true
        <-> role candidate = targetPlayerRole (matchData puzzle))
    /\ (isMVP fb = true <-> id candidate = targetPlayer puzzle).
Proof.
  intros Hfind Hpuzzle.
  pose proof (findPlayer_id _ _ _ Hfind) as Hid.
  unfold generateNewFeedback. rewrite Hfind, Hpuzzle.
  eexists; split; [reflexivity|]. simpl. rewrite Hid.
  repeat split; try (intros H; apply bool_decide_eq_true in H; exact H);
    intros H; apply bool_decide_eq_true; exact H.
Qed.

Lemma generateNewFeedback_exact_witness :
  exists fb,
    generateNewFeedback [kohli] (Some final2024) "kohli" None = Some fb
    /\ id kohli = "kohli"%string
    /\ (playedInGame fb = true
        <-> id kohli ∈ default [] (playersInMatch (matchData final2024)))
    /\ (sameTeam fb = true
        <-> country kohli = targetPlayerTeam (matchData final2024))
    /\ (sameRole fb = true
        <-> role kohli = targetPlayerRole (matchData final2024))
    /\ (isMVP fb = true <-> id kohli = targetPlayer final2024).
Proof.
  apply (generateNewFeedback_exact [kohli] (Some final2024) None "kohli" kohli final2024);
    vm_compute; reflexivity.
Defined.

(** The scenario of the specification: guessing the target itself. *)
Example generateNewFeedback_target :
  generateNewFeedback [kohli] (Some final2024) "kohli" None
  = Some {| playerName := "Virat Kohli"; fbCountry := "India"; fbRole := "Batsman";
            playedInGame := true; sameTeam := true; sameRole := true;
            isMVP := true |}.
Proof. vm_compute. reflexivity. Qed.

(** C6, as stated, fails: on such a puzzle the scoring function marks the
    guess as the target while the three other attributes are false. *)
Lemma isMVP_without_matches :
  exists fb,
    generateNewFeedback [kohli] (Some mislabelled) "kohli" None = Some fb
    /\ isMVP fb = true
    /\ playedInGame fb = false /\ sameTeam fb = false /\ sameRole fb = false.
Proof. eexists. split; [vm_compute; reflexivity|]. simpl. auto. Qed.

(** C6 (amended). When the puzzle in play is consistent with the catalog
    about its target, every feedback record with [isMVP] true also has
    [playedInGame], [sameTeam] and [sameRole] true. *)
Theorem isMVP_implies_all
    (players : list Player) (currentPuzzle puzzleToUse : option Puzzle)
    (key : string) (puzzle : Puzzle) (fb : Feedback) :
  orElse puzzleToUse currentPuzzle = Some puzzle ->
  targetConsistent players puzzle ->
  generateNewFeedback players currentPuzzle key puzzleToUse = Some fb ->
  isMVP fb = true ->
  playedInGame fb = true /\ sameTeam fb = true /\ sameRole fb = true.
Proof.
  intros Hpuzzle [Hin Hattr]. unfold generateNewFeedback. rewrite Hpuzzle.
  destruct (findPlayer players key) as [p|] eqn:Hfind; [|discriminate].
  intros [= <-]. simpl. intros Hmvp. apply bool_decide_eq_true in Hmvp. subst key.
  destruct (Hattr p Hfind) as [Hteam Hrole].
  repeat split; apply bool_decide_eq_true; assumption.
Qed.

Lemma isMVP_implies_all_witness :
  playedInGame (mkFeedback "Virat Kohli" "India" "Batsman" true true true true) = true
  /\ sameTeam (mkFeedback "Virat Kohli" "India" "Batsman" true true true true) = true
  /\ sameRole (mkFeedback "Virat Kohli" "India" "Batsman" true true true true) = true.
Proof.
  apply (isMVP_implies_all [kohli] (Some final2024) None "kohli" final2024).
  - reflexivity.
  - split.
    + simpl. constructor.
    + intros p. vm_compute. intros [= <-]. split; reflexivity.
  - vm_compute. reflexivity.
  - reflexivity.
Defined.

End Scoring.

(** ** Puzzle selection *)

Section Selection.
Import DailyPuzzle.

(** The clock of [launchNoon] reads 2026-01-15T12:00:00Z, the day of the
    epoch. *)
Example launchNoon_date : getEffectiveDate launchNoon emptyStorage = EPOCH_DATE.
Proof. reflexivity. Qed.

(** C5, as stated, fails: on an empty catalog the selection does not throw
    [CatalogEmpty]; it returns an object with no puzzle and a [NaN] index. *)
Lemma getPuzzleForToday_empty_returns :
  getPuzzleForToday launchNoon emptyStorage ([] : list App.Puzzle)
    <> JS.Throw "CatalogEmpty"
  /\ getPuzzleForToday launchNoon emptyStorage ([] : list App.Puzzle)
     = JS.Normal {| puzzle := None; puzzleNumber := 0; puzzleIndex := JS.NaN |}.
Proof. split; [discriminate | reflexivity]. Qed.

Lemma getPuzzleNumber_nonneg (dateStr : Z) : 0 <= getPuzzleNumber dateStr.
Proof. unfold getPuzzleNumber. lia. Qed.

(** On a catalog of positive length the index is the puzzle number modulo
    the length, and it is the index of an element. *)
Lemma getPuzzleIndex_wraps (puzzleNumber totalPuzzles : Z) :
  0 <= puzzleNumber -> 0 < totalPuzzles ->
  getPuzzleIndex puzzleNumber totalPuzzles = JS.Int (puzzleNumber mod totalPuzzles)
  /\ 0 <= puzzleNumber mod totalPuzzles < totalPuzzles.
Proof.
  intros Hn Hlen. unfold getPuzzleIndex, JS.rem.
  destruct (Z.eqb_spec totalPuzzles 0) as [|_]; [lia|].
  rewrite Z.rem_mod_nonneg by lia.
  split; [reflexivity | apply Z.mod_pos_bound; assumption].
Qed.

(** C5 (amended). Selection never fails. For every clock and storage,
    selecting from a catalog of length 0 returns normally a result with no
    puzzle, the puzzle number of the effective date, and the index [NaN]
    (that of [n % 0]); selecting from a catalog that is not empty returns the
    puzzle at the puzzle number modulo the catalog length. *)
Theorem getPuzzleForToday_empty (Puzzle : Type) (env : Env) (ls : Storage) :
  let n := getPuzzleNumber (getEffectiveDate env ls) in
  getPuzzleForToday env ls ([] : list Puzzle)
  = JS.Normal {| puzzle := None; puzzleNumber := n; puzzleIndex := JS.NaN |}
  /\ (forall puzzleNumber, getPuzzleIndex puzzleNumber 0 = JS.NaN)
  /\ (forall (p : Puzzle) (ps : list Puzzle),
        let len := Z.of_nat (length (p :: ps)) in
        exists q,
          (p :: ps) !! Z.to_nat (n mod len) = Some q
          /\ getPuzzleForToday env ls (p :: ps)
             = JS.Normal {| puzzle := Some q; puzzleNumber := n;
                            puzzleIndex := JS.Int (n mod len) |}).
Proof.
  intros n. split; [reflexivity|]. split; [reflexivity|].
  intros p ps len.
  pose proof (getPuzzleNumber_nonneg (getEffectiveDate env ls)) as Hn. fold n in Hn.
  assert (Hlen : 0 < len) by (subst len; simpl length; lia).
  destruct (getPuzzleIndex_wraps n len Hn Hlen) as [Hidx Hrange].
  destruct (lookup_lt_is_Some_2 (p :: ps) (Z.to_nat (n mod len))) as [q Hq].
  { subst len. lia. }
  exists q. split; [exact Hq|].
  unfold getPuzzleForToday. fold n. fold len. rewrite Hidx.
  unfold JS.index. destruct (Z.ltb_spec (n mod len) 0) as [|_]; [lia|].
  rewrite Hq. reflexivity.
Qed.

End Selection.

(** ** The guess transition *)

Section Transition.
Import DailyPuzzle UseDailyPuzzle.

Lemma alreadyCompleted_false (h : Hook) :
  gameStatus (gameState h) <> Won -> gameStatus (gameState h) <> Lost ->
  alreadyCompleted h = false.
Proof.
  intros Hw Hl. unfold alreadyCompleted.
  rewrite !bool_decide_eq_false_2 by assumption. reflexivity.
Qed.

Lemma alreadyCompleted_true (h : Hook) :
  gameStatus (gameState h) = Won \/ gameStatus (gameState h) = Lost ->
  alreadyCompleted h = true.
Proof.
  intros [H|H]; unfold alreadyCompleted; rewrite H; reflexivity.
Qed.

(** Reading back a state that was just saved gives its guesses and status. *)
Lemma load_save_guesses (state : GameState) (ls : Storage) :
  guesses (loadGameState (saveGameState state ls)) = guesses state
  /\ gameStatus (loadGameState (saveGameState state ls)) = gameStatus state.
Proof. split; reflexivity. Qed.

(** The storage written by [completeGame] holds the loaded state with the
    final status. *)
Lemma completeGame_state (won_ : bool) (env : Env) (ls : Storage) :
  guesses (loadGameState (completeGame won_ env ls).2) = guesses (loadGameState ls)
  /\ gameStatus (loadGameState (completeGame won_ env ls).2)
     = (if won_ then Won else Lost).
Proof. unfold completeGame, updateStatsOnComplete. simpl. split; reflexivity. Qed.

(** C2. From a state that is neither won nor lost and holds [k < MAX_GUESSES]
    guesses, [recordGuess] called with the [isMVP] flag of the guess's
    feedback appends the guess, and the new status is [won] when the flag is
    set (also when [k + 1 = MAX_GUESSES]: the win test comes first), [lost]
    when it is not set and [k + 1 = MAX_GUESSES], and [in_progress] otherwise.
    The other fields are kept, and the hook state and the storage hold the
    same guesses and status afterwards. *)
Theorem recordGuess_transition
    (env : Env) (h : Hook) (ls : Storage) (playerKey : string) (fb : App.Feedback) :
  gameStatus (gameState h) <> Won ->
  gameStatus (gameState h) <> Lost ->
  Z.of_nat (length (guesses (gameState h))) < MAX_GUESSES ->
  let k := Z.of_nat (length (guesses (gameState h))) in
  let out := recordGuess playerKey (App.isMVP fb) env h ls in
  let result := out.1.1 in
  guesses (newState result) = guesses (gameState h) ++ [playerKey]
  /\ gameStatus (newState result)
     = (if App.isMVP fb then Won
        else if k + 1 =? MAX_GUESSES then Lost
        else InProgress)
  /\ lastPlayedDate (newState result) = lastPlayedDate (gameState h)
  /\ lastPuzzleNumber (newState result) = lastPuzzleNumber (gameState h)
  /\ modalShown (newState result) = modalShown (gameState h)
  /\ gameState out.1.2 = newState result
  /\ guesses (loadGameState out.2) = guesses (newState result)
  /\ gameStatus (loadGameState out.2) = gameStatus (newState result).
Proof.
  intros Hw Hl Hk k out result. subst result out.
  unfold recordGuess. rewrite (alreadyCompleted_false h Hw Hl).
  assert (Hlast : (MAX_GUESSES <=? Z.of_nat (length (guesses (gameState h) ++ [playerKey])))
                  = (k + 1 =? MAX_GUESSES)).
  { rewrite length_app. simpl. subst k.
    destruct (Z.leb_spec MAX_GUESSES (Z.of_nat (length (guesses (gameState h)) + 1)));
      destruct (Z.eqb_spec (Z.of_nat (length (guesses (gameState h))) + 1) MAX_GUESSES);
      lia. }
  rewrite Hlast.
  destruct (App.isMVP fb); simpl.
  - repeat split.
  - destruct (k + 1 =? MAX_GUESSES); simpl; repeat split.
Qed.

Lemma recordGuess_transition_witness :
  let out := recordGuess "kohli" (App.isMVP hit) launchNoon freshHook emptyStorage in
  guesses (newState out.1.1) = guesses fresh ++ ["kohli"%string]
  /\ gameStatus (newState out.1.1) = Won
  /\ lastPlayedDate (newState out.1.1) = lastPlayedDate fresh
  /\ lastPuzzleNumber (newState out.1.1) = lastPuzzleNumber fresh
  /\ modalShown (newState out.1.1) = modalShown fresh
  /\ gameState out.1.2 = newState out.1.1
  /\ guesses (loadGameState out.2) = guesses (newState out.1.1)
  /\ gameStatus (loadGameState out.2) = gameStatus (newState out.1.1).
Proof.
  apply (recordGuess_transition launchNoon freshHook emptyStorage "kohli" hit);
    simpl; [discriminate | discriminate | reflexivity].
Defined.

(** A hit on the last allowed guess is a win, a miss there is a loss. *)
Example recordGuess_boundary :
  gameStatus (newState (recordGuess "kohli" (App.isMVP hit) launchNoon lastChance
                          emptyStorage).1.1) = Won
  /\ gameStatus (newState (recordGuess "bumrah" (App.isMVP miss) launchNoon lastChance
                             emptyStorage).1.1) = Lost.
Proof. split; reflexivity. Qed.

(** C3. On a state that is won or lost a further guess changes nothing: the
    hook's [recordGuess] returns that same state and leaves the hook state
    and the storage as they were, and [recordGuess] of [dailyPuzzle.js]
    returns the stored state and leaves the storage as it was. *)
Theorem terminal_guess_noop (state : GameState) (playerKey : string) :
  gameStatus state = Won \/ gameStatus state = Lost ->
  (forall (isCorrect : bool) (env : Env) (h : Hook) (ls : Storage),
      gameState h = state ->
      let out := UseDailyPuzzle.recordGuess playerKey isCorrect env h ls in
      newState out.1.1 = state /\ out.1.2 = h /\ out.2 = ls)
  /\ (forall ls : Storage,
      loadGameState ls = state ->
      DailyPuzzle.recordGuess playerKey ls = (state, ls)).
Proof.
  intros Hterm. split.
  - intros isCorrect env h ls <-.
    unfold UseDailyPuzzle.recordGuess.
    rewrite (alreadyCompleted_true h Hterm). simpl. repeat split.
  - intros ls Hload. unfold DailyPuzzle.recordGuess. rewrite Hload.
    destruct Hterm as [H|H]; rewrite H; reflexivity.
Qed.

Lemma terminal_guess_noop_witness :
  (forall (isCorrect : bool) (env : Env) (h : Hook) (ls : Storage),
      gameState h = solved ->
      let out := UseDailyPuzzle.recordGuess "dhoni" isCorrect env h ls in
      newState out.1.1 = solved /\ out.1.2 = h /\ out.2 = ls)
  /\ (forall ls : Storage,
      loadGameState ls = solved ->
      DailyPuzzle.recordGuess "dhoni" ls = (solved, ls)).
Proof.
  apply (terminal_guess_noop solved "dhoni"). left. reflexivity.
Defined.

End Transition.

(** ** Statistics *)

Section Statistics.
Import DailyPuzzle.

Lemma get_set_eq (arr : JS.sparse) (i v : Z) :
  0 <= i -> JS.get (JS.set arr i v) i = Some v.
Proof.
  intros Hi. unfold JS.get, JS.set. cbv zeta.
  destruct (Z.ltb_spec i 0) as [|_]; [lia|].
  destruct (Nat.ltb_spec (Z.to_nat i) (length arr)) as [Hlt|Hge].
  - rewrite list_lookup_insert_eq by assumption. reflexivity.
  - rewrite lookup_app_r by assumption.
    rewrite lookup_app_r by (rewrite length_replicate; lia).
    rewrite length_replicate, Nat.sub_diag. reflexivity.
Qed.

Lemma get_set_ne (arr : JS.sparse) (i j v : Z) :
  0 <= i -> j <> i -> JS.get (JS.set arr i v) j = JS.get arr j.
Proof.
  intros Hi Hne. unfold JS.get, JS.set. cbv zeta.
  destruct (Z.ltb_spec i 0) as [|_]; [lia|].
  destruct (Z.ltb_spec j 0) as [|Hj]; [reflexivity|].
  assert (Hnat : Z.to_nat i <> Z.to_nat j) by lia.
  destruct (Nat.ltb_spec (Z.to_nat i) (length arr)) as [Hlt|Hge].
  - rewrite list_lookup_insert_ne by assumption. reflexivity.
  - destruct (Nat.lt_ge_cases (Z.to_nat j) (length arr)) as [Hjlt|Hjge].
    + rewrite lookup_app_l by assumption. reflexivity.
    + rewrite (lookup_ge_None_2 arr) by assumption.
      rewrite lookup_app_r by assumption.
      destruct (Nat.lt_ge_cases (Z.to_nat j) (Z.to_nat i)) as [Hji|Hji].
      * rewrite lookup_app_l by (rewrite length_replicate; lia).
        rewrite lookup_replicate_2 by lia. reflexivity.
      * rewrite lookup_ge_None_2; [reflexivity|].
        rewrite length_app, length_replicate. simpl. lia.
Qed.

(** Where clocks never change, moving a date by [n] local days moves the
    instant by [n] whole days. *)
Lemma addDays_fixed (env : Env) (t n : Z) :
  fixedOffset env -> addDays env t n = t + n * MS_PER_DAY.
Proof.
  intros [c Hc]. unfold addDays, UTC, LocalTime. rewrite !Hc. ring.
Qed.

(** There, the string computed as [yesterdayStr] names the day before
    [today]. *)
Lemma yesterday_of (env : Env) (today : Z) :
  fixedOffset env ->
  isoDate (addDays env (utcMidnight today) (-1)) = today - 1.
Proof.
  intros Hfixed. rewrite addDays_fixed by assumption.
  unfold isoDate, utcMidnight.
  replace (today * MS_PER_DAY + -1 * MS_PER_DAY) with ((today - 1) * MS_PER_DAY) by ring.
  apply Z.div_mul. discriminate.
Qed.

(** The statistics update on a host whose clocks never change, for a game
    that ended after [guessCount >= 1] guesses. It adds 1 to [gamesPlayed]
    and stores the result. On a win it adds 1 to [gamesWon] and to
    [guessDistribution[guessCount - 1]] (a missing count reads as 0; no other
    index changes); [currentStreak] becomes [currentStreak + 1] if
    [lastWinDate] is the day before the effective date, else 1 if
    [lastWinDate] is not the effective date, and stays as it is if
    [lastWinDate] is the effective date; then [maxStreak] is the larger of
    [maxStreak] and the new [currentStreak], and [lastWinDate] is the
    effective date. On a loss [currentStreak] becomes 0 and [gamesWon],
    [guessDistribution], [maxStreak] and [lastWinDate] are unchanged. *)
Lemma updateStatsOnComplete_fixed_zone
    (won_ : bool) (guessCount : Z) (env : Env) (ls : Storage) :
  fixedOffset env ->
  1 <= guessCount ->
  let stats := loadStats ls in
  let today := getEffectiveDate env ls in
  let out := updateStatsOnComplete won_ guessCount env ls in
  let stats' := out.1 in
  gamesPlayed stats' = gamesPlayed stats + 1
  /\ loadStats out.2 = stats'
  /\ if won_ then
       gamesWon stats' = gamesWon stats + 1
       /\ JS.get (guessDistribution stats') (guessCount - 1)
          = Some (JS.or0 (JS.get (guessDistribution stats) (guessCount - 1)) + 1)
       /\ (forall i, i <> guessCount - 1 ->
             JS.get (guessDistribution stats') i = JS.get (guessDistribution stats) i)
       /\ (lastWinDate stats = Some (today - 1) ->
             currentStreak stats' = currentStreak stats + 1)
       /\ (lastWinDate stats <> Some (today - 1) -> lastWinDate stats <> Some today ->
             currentStreak stats' = 1)
       /\ (lastWinDate stats = Some today ->
             currentStreak stats' = currentStreak stats)
       /\ maxStreak stats' = Z.max (maxStreak stats) (currentStreak stats')
       /\ lastWinDate stats' = Some today
     else
       currentStreak stats' = 0
       /\ gamesWon stats' = gamesWon stats
       /\ guessDistribution stats' = guessDistribution stats
       /\ maxStreak stats' = maxStreak stats
       /\ lastWinDate stats' = lastWinDate stats.
Proof.
  intros Hfixed Hcount stats today out stats'. subst stats' out.
  unfold updateStatsOnComplete. fold stats. fold today.
  rewrite (yesterday_of env today Hfixed).
  destruct won_; simpl.
  - split; [reflexivity|]. split; [reflexivity|]. split; [reflexivity|].
    split; [apply get_set_eq; lia|].
    split; [intros i Hi; apply get_set_ne; [lia | assumption]|].
    split.
    { intros Hy. rewrite bool_decide_eq_true_2 by assumption. reflexivity. }
    split.
    { intros Hy Ht. rewrite bool_decide_eq_false_2 by assumption.
      rewrite bool_decide_eq_false_2 by assumption. reflexivity. }
    split.
    { intros Ht. rewrite bool_decide_eq_false_2.
      - rewrite bool_decide_eq_true_2 by assumption. reflexivity.
      - rewrite Ht. intros [= H]. lia. }
    split; reflexivity.
  - repeat split.
Qed.

(** The parts of the update that do not read the calendar hold on every
    host. *)
Lemma updateStatsOnComplete_counters
    (won_ : bool) (guessCount : Z) (env : Env) (ls : Storage) :
  let stats := loadStats ls in
  let stats' := (updateStatsOnComplete won_ guessCount env ls).1 in
  gamesPlayed stats' = gamesPlayed stats + 1
  /\ gamesWon stats' = gamesWon stats + (if won_ then 1 else 0)
  /\ maxStreak stats' = (if won_ then Z.max (maxStreak stats) (currentStreak stats')
                         else maxStreak stats)
  /\ lastWinDate stats' = (if won_ then Some (getEffectiveDate env ls)
                           else lastWinDate stats)
  /\ (won_ = false -> currentStreak stats' = 0
                      /\ guessDistribution stats' = guessDistribution stats).
Proof.
  unfold updateStatsOnComplete. destruct won_; simpl.
  - repeat split; try lia; discriminate.
  - repeat split; lia.
Qed.

(** C4 fails on the code at this input. On a central European host, the day
    after the clocks went back, a player whose last win was the day before
    (2026-10-25) wins again on 2026-10-26: the date computed as yesterday is
    2026-10-24, and the streak of 3 is set to 1 where the claim has 4. *)
Theorem streak_broken_after_clock_change :
  getEffectiveDate dayAfterChange onStreak = 20752
  /\ lastWinDate (loadStats onStreak) = Some (20752 - 1)
  /\ currentStreak (loadStats onStreak) = 3
  /\ isoDate (addDays dayAfterChange (utcMidnight 20752) (-1)) = 20750
  /\ currentStreak (updateStatsOnComplete true 2 dayAfterChange onStreak).1 = 1.
Proof. vm_compute. repeat split. Qed.

(** The same win on a UTC host extends the streak to 4. *)
Example streak_kept_on_utc_host :
  currentStreak
    (updateStatsOnComplete true 2
       {| now := now dayAfterChange; debugParam := false; localTZA := utcZone |}
       onStreak).1 = 4.
Proof. vm_compute. reflexivity. Qed.

(** The streak scenario on a UTC host: wins on 2026-01-15 and 2026-01-16
    give a streak of 2, and the next win on 2026-01-20 starts again at 1;
    [maxStreak] keeps 2. A loss on 2026-01-21 resets the streak and leaves
    the distribution. *)
Example streak_scenario :
  let s1 := updateStatsOnComplete true 1 (noonAfter 0) emptyStorage in
  let s2 := updateStatsOnComplete true 3 (noonAfter 1) s1.2 in
  let s3 := updateStatsOnComplete true 5 (noonAfter 5) s2.2 in
  let s4 := updateStatsOnComplete false 5 (noonAfter 6) s3.2 in
  currentStreak s1.1 = 1 /\ currentStreak s2.1 = 2 /\ currentStreak s3.1 = 1
  /\ maxStreak s3.1 = 2
  /\ guessDistribution s3.1 = [Some 1; Some 0; Some 1; Some 0; Some 1]
  /\ currentStreak s4.1 = 0 /\ gamesPlayed s4.1 = 4 /\ gamesWon s4.1 = 3
  /\ guessDistribution s4.1 = guessDistribution s3.1
  /\ lastWinDate s4.1 = Some (EPOCH_DATE + 5).
Proof. vm_compute. repeat split. Qed.

(** A distribution stored with four counts grows when a game is won in five
    guesses. *)
Example distribution_grows :
  JS.set [Some 2; Some 0; Some 1; Some 0] 4
         (JS.or0 (JS.get [Some 2; Some 0; Some 1; Some 0] 4) + 1)
  = [Some 2; Some 0; Some 1; Some 0; Some 1].
Proof. reflexivity. Qed.

End Statistics.

(** ** Ranking *)

Section Ranking.
Import UseLeaderboard.

Lemma compareRows_le (a b : Row) : compareRows a b <= 0 <-> ranksBefore a b.
Proof.
  unfold compareRows, ranksBefore.
  destruct (Z.eqb_spec (guesses_used (entry a)) (guesses_used (entry b))); simpl; lia.
Qed.

Lemma ranksBefore_total (a b : Row) : ranksBefore a b \/ ranksBefore b a.
Proof. unfold ranksBefore. lia. Qed.

Lemma ranksBefore_trans (a b c : Row) :
  ranksBefore a b -> ranksBefore b c -> ranksBefore a c.
Proof. unfold ranksBefore. lia. Qed.

Lemma insert_perm (x : Row) (l : list Row) :
  JS.insert compareRows x l ≡ₚ x :: l.
Proof.
  induction l as [|y l IH]; simpl; [reflexivity|].
  destruct (compareRows x y <=? 0); [reflexivity|].
  rewrite IH. apply Permutation_swap.
Qed.

Lemma sort_perm (l : list Row) : JS.sort compareRows l ≡ₚ l.
Proof.
  induction l as [|x l IH]; simpl; [reflexivity|].
  rewrite insert_perm. rewrite IH. reflexivity.
Qed.

Lemma insert_sorted (x : Row) (l : list Row) :
  StronglySorted ranksBefore l ->
  StronglySorted ranksBefore (JS.insert compareRows x l).
Proof.
  induction 1 as [|y l Hl IH Hy]; simpl.
  - repeat constructor.
  - destruct (Z.leb_spec (compareRows x y) 0) as [Hle|Hgt].
    + apply compareRows_le in Hle.
      constructor; [constructor; assumption|].
      constructor; [assumption|].
      eapply Forall_impl; [exact Hy|].
      intros z Hz. eapply ranksBefore_trans; eassumption.
    + constructor; [assumption|].
      rewrite insert_perm. constructor; [|assumption].
      destruct (ranksBefore_total y x) as [H|H]; [assumption|].
      apply compareRows_le in H. lia.
Qed.

Lemma sort_sorted (l : list Row) :
  StronglySorted ranksBefore (JS.sort compareRows l).
Proof.
  induction l as [|x l IH]; simpl; [constructor|].
  apply insert_sorted, IH.
Qed.

(** In a strongly sorted list an element at a smaller index is related to
    one at a larger index. *)
Lemma StronglySorted_at {A : Type} (R : A -> A -> Prop) (l : list A) :
  StronglySorted R l ->
  forall (i j : nat) (a b : A),
    (i < j)%nat -> l !! i = Some a -> l !! j = Some b -> R a b.
Proof.
  induction 1 as [|x l Hl IH Hx]; intros i j a b Hij Hi Hj.
  - discriminate.
  - destruct j as [|j]; [lia|]. simpl in Hj.
    destruct i as [|i]; simpl in Hi.
    + injection Hi as <-. rewrite Forall_forall in Hx.
      apply Hx. eapply list_elem_of_lookup_2. exact Hj.
    + eapply (IH i j); [lia | eassumption | eassumption].
Qed.

Lemma slice0_prefix {A : Type} (l : list A) (n : Z) :
  exists rest, l = JS.slice0 l n ++ rest.
Proof.
  unfold JS.slice0. destruct (n <? 0); eexists; symmetry; apply take_drop.
Qed.

(** C7. The ranked order of a leaderboard is a rearrangement of exactly its
    winning rows (so a row is ranked if and only if it is on the leaderboard
    and won), and of two ranked rows the one in front has fewer guesses, or
    as many guesses and a submission time that is not later. [getTopEntries]
    and the modal show a prefix of that order. *)
Theorem rankedRows_spec (rows : list Row) :
  rankedRows rows ≡ₚ filter (fun r => won (entry r) = true) rows
  /\ (forall r, r ∈ rankedRows rows <-> r ∈ rows /\ won (entry r) = true)
  /\ (forall (i j : nat) (a b : Row),
        (i < j)%nat ->
        rankedRows rows !! i = Some a -> rankedRows rows !! j = Some b ->
        guesses_used (entry a) < guesses_used (entry b)
        \/ (guesses_used (entry a) = guesses_used (entry b)
            /\ created_at a <= created_at b))
  /\ (forall h n, puzzleLeaderboard h = rows ->
        exists rest, rankedRows rows = getTopEntries h n ++ rest)
  /\ exists rest, rankedRows rows = modalRows rows ++ rest.
Proof.
  assert (Hperm : rankedRows rows ≡ₚ filter (fun r => won (entry r) = true) rows)
    by apply sort_perm.
  split; [exact Hperm|]. split; [|split; [|split]].
  - intros r. rewrite Hperm. rewrite list_elem_of_filter. tauto.
  - intros i j a b Hij Hi Hj.
    exact (StronglySorted_at ranksBefore _ (sort_sorted _) i j a b Hij Hi Hj).
  - intros h n <-. apply slice0_prefix.
  - apply slice0_prefix.
Qed.

End Ranking.

(** ** Percentile *)

Section Percentile.
Import UseLeaderboard.

Lemma countBetter_step (guessesUsed : Z) (won_ : bool) (acc : Z) (r : Row) :
  countBetter guessesUsed won_ acc r
  = acc + (if didBetter guessesUsed won_ r then 1 else 0).
Proof.
  unfold countBetter, didBetter.
  destruct (won (entry r)), won_, (guesses_used (entry r) <? guessesUsed);
    simpl; lia.
Qed.

(** The loop of [calculatePercentile] counts the rows that did better. *)
Lemma countBetter_fold (guessesUsed : Z) (won_ : bool) (rows : list Row) (acc : Z) :
  fold_left (countBetter guessesUsed won_) rows acc
  = acc + betterCountOf guessesUsed won_ rows.
Proof.
  unfold betterCountOf. revert acc.
  induction rows as [|r rows IH]; intros acc; simpl.
  - lia.
  - rewrite IH, countBetter_step, filter_cons.
    destruct (didBetter guessesUsed won_ r) eqn:Hr.
    + rewrite decide_True by reflexivity. simpl length. lia.
    + rewrite decide_False by discriminate. lia.
Qed.

(** C8, as stated, fails on an empty leaderboard: the result is [null], not
    the number 0. *)
Lemma calculatePercentile_empty_null :
  calculatePercentile noRows 3 true = None
  /\ calculatePercentile noRows 3 true <> Some (JS.ofZ 0).
Proof. split; [reflexivity | discriminate]. Qed.

(** C8 (amended). With [total] the number of rows and [betterCount] the
    number of rows that did better than the given result, the percentile is
    [null] when [total = 0], and otherwise [Math.round] of
    [((total - betterCount) / total) * 100] computed in binary64. *)
Theorem calculatePercentile_spec (h : Hook) (guessesUsed : Z) (won_ : bool) :
  let total := Z.of_nat (length (puzzleLeaderboard h)) in
  let betterCount := betterCountOf guessesUsed won_ (puzzleLeaderboard h) in
  calculatePercentile h guessesUsed won_
  = if total =? 0 then None
    else Some (JS.Math_round
                 (JS.fmul (JS.fdiv (JS.ofZ (total - betterCount)) (JS.ofZ total))
                          (JS.ofZ 100))).
Proof.
  intros total betterCount. unfold calculatePercentile. fold total.
  destruct (total =? 0); [reflexivity|].
  rewrite countBetter_fold. reflexivity.
Qed.

(** Four rows, one of which did better than a win in three guesses: 75. *)
Example percentile_75 :
  calculatePercentile
    (board [row "a" 2 true 1; row "b" 3 true 2; row "c" 5 false 3; row "d" 4 true 4])
    3 true
  = Some (JS.ofZ 75).
Proof. vm_compute. reflexivity. Qed.

(** The arithmetic is that of binary64: with 40 rows of which 17 did
    better, [(23 / 40) * 100] is just under 57.5 and rounds to 57. *)
Example percentile_binary64 :
  calculatePercentile
    (board (replicate 17 (row "w" 1 true 0) ++ replicate 23 (row "l" 5 false 0)))
    2 true
  = Some (JS.ofZ 57).
Proof. vm_compute. reflexivity. Qed.

End Percentile.

(** ** The local archive listing *)

Section Archive.
Import DailyPuzzle ArchiveModal.

Lemma isoDate_midnight (d : Z) : isoDate (utcMidnight d) = d.
Proof. unfold isoDate, utcMidnight. apply Z.div_mul. discriminate. Qed.

Lemma addDays_midnight (env : Env) (d n : Z) :
  fixedOffset env -> addDays env (utcMidnight d) n = utcMidnight (d + n).
Proof.
  intros Hfixed. rewrite addDays_fixed by assumption. unfold utcMidnight. ring.
Qed.

Lemma midnight_before (today d : Z) :
  utcMidnight d < today <-> d <= lastListed today.
Proof.
  unfold lastListed, isoDate, utcMidnight.
  pose proof (Z.div_mod (today - 1) MS_PER_DAY ltac:(discriminate)) as Hdm.
  pose proof (Z.mod_pos_bound (today - 1) MS_PER_DAY ltac:(reflexivity)) as Hb.
  change MS_PER_DAY with 86400000 in *. lia.
Qed.

Lemma lastListed_range (today : Z) :
  lastListed today = isoDate today - 1 \/ lastListed today = isoDate today.
Proof.
  unfold lastListed, isoDate.
  pose proof (Z.div_mod (today - 1) MS_PER_DAY ltac:(discriminate)) as Hdm.
  pose proof (Z.mod_pos_bound (today - 1) MS_PER_DAY ltac:(reflexivity)) as Hb.
  pose proof (Z.div_mod today MS_PER_DAY ltac:(discriminate)) as Hdm'.
  pose proof (Z.mod_pos_bound today MS_PER_DAY ltac:(reflexivity)) as Hb'.
  change MS_PER_DAY with 86400000 in *. lia.
Qed.

(** Where clocks never change, the loop started at the midnight of [d] with
    enough turns left ends by its condition, after listing the dates from [d]
    to the last one. *)
Lemma archiveLoop_run (env : Env) (n : nat) :
  fixedOffset env ->
  forall (fuel : nat) (today d : Z) (acc : list ArchiveItem),
    (n <= fuel)%nat ->
    Z.of_nat n = Z.max 0 (lastListed today + 1 - d) ->
    archiveLoop env fuel today (utcMidnight d) acc
    = Some (acc ++ (itemOf <$> seqZ d (Z.of_nat n))).
Proof.
  intros Hfixed.
  induction n as [|n IH]; intros fuel today d acc Hfuel Hn.
  - assert (Hcond : (utcMidnight d <? today) = false).
    { apply Z.ltb_ge. pose proof (midnight_before today d). lia. }
    destruct fuel; simpl; rewrite Hcond; rewrite app_nil_r; reflexivity.
  - assert (Hcond : (utcMidnight d <? today) = true).
    { apply Z.ltb_lt. apply midnight_before. lia. }
    destruct fuel as [|fuel]; [lia|]. simpl. rewrite Hcond.
    rewrite addDays_midnight by assumption. rewrite isoDate_midnight.
    rewrite (IH fuel today (d + 1)) by lia.
    rewrite (seqZ_cons d (Z.of_nat (S n))) by lia.
    rewrite <- app_assoc. simpl.
    replace (Z.pred (Z.of_nat (S n))) with (Z.of_nat n) by lia.
    replace (Z.succ d) with (d + 1) by lia. reflexivity.
Qed.

(** The listing in closed form: it is produced, and it runs from the last
    listed date down to the day after the epoch. *)
Lemma generateLocalArchive_closed (env : Env) :
  fixedOffset env ->
  generateLocalArchive env
  = Some (itemOf <$> reverse (seqZ (EPOCH_DATE + 1)
                                   (lastListed (now env) - EPOCH_DATE))).
Proof.
  intros Hfixed. set (today := now env).
  assert (Hseq : seqZ (EPOCH_DATE + 1) (Z.of_nat (Z.to_nat (lastListed today - EPOCH_DATE)))
                 = seqZ (EPOCH_DATE + 1) (lastListed today - EPOCH_DATE)).
  { destruct (Z.le_gt_cases 0 (lastListed today - EPOCH_DATE)).
    - rewrite Z2Nat.id by assumption. reflexivity.
    - replace (Z.to_nat (lastListed today - EPOCH_DATE)) with 0%nat by lia.
      rewrite (seqZ_nil _ (lastListed today - EPOCH_DATE)) by lia. reflexivity. }
  unfold generateLocalArchive. fold today.
  rewrite addDays_midnight by assumption.
  rewrite (archiveLoop_run env (Z.to_nat (lastListed today - EPOCH_DATE)) Hfixed).
  - rewrite Hseq. simpl. rewrite fmap_reverse. reflexivity.
  - unfold archiveFuel. fold (isoDate today).
    destruct (lastListed_range today); lia.
  - lia.
Qed.

Lemma archive_lookup (today : Z) (i : nat) (it : ArchiveItem) :
  (itemOf <$> reverse (seqZ (EPOCH_DATE + 1) (lastListed today - EPOCH_DATE))) !! i
  = Some it ->
  it = itemOf (lastListed today - Z.of_nat i)
  /\ Z.of_nat i < lastListed today - EPOCH_DATE.
Proof.
  rewrite list_lookup_fmap. intros Hi.
  apply fmap_Some in Hi as (d & Hd & ->).
  apply reverse_lookup_Some in Hd as [Hd Hlen].
  rewrite length_seqZ in Hd, Hlen.
  apply lookup_seqZ in Hd as [-> Hlt]. split; [f_equal|]; lia.
Qed.

Lemma archive_at (today : Z) (d : Z) :
  EPOCH_DATE < d <= lastListed today ->
  (itemOf <$> reverse (seqZ (EPOCH_DATE + 1) (lastListed today - EPOCH_DATE)))
    !! Z.to_nat (lastListed today - d) = Some (itemOf d).
Proof.
  intros Hd. rewrite list_lookup_fmap.
  rewrite reverse_lookup by (rewrite length_seqZ; lia).
  rewrite length_seqZ, lookup_seqZ_lt by lia.
  simpl. f_equal. f_equal. lia.
Qed.

(** C9, as stated, fails: the epoch date is not listed. On a UTC host, at
    midnight two days after the epoch, the listing holds the single date
    2026-01-16, where the claim has 2026-01-16 and 2026-01-15. *)
Lemma generateLocalArchive_skips_epoch :
  generateLocalArchive secondMidnight = Some [itemOf (EPOCH_DATE + 1)]
  /\ archiveAsClaimed (now secondMidnight)
     = [itemOf (EPOCH_DATE + 1); itemOf EPOCH_DATE]
  /\ generateLocalArchive secondMidnight
     <> Some (archiveAsClaimed (now secondMidnight)).
Proof.
  assert (H1 : generateLocalArchive secondMidnight = Some [itemOf (EPOCH_DATE + 1)])
    by (vm_compute; reflexivity).
  assert (H2 : archiveAsClaimed (now secondMidnight)
               = [itemOf (EPOCH_DATE + 1); itemOf EPOCH_DATE])
    by (vm_compute; reflexivity).
  split; [exact H1|]. split; [exact H2|].
  rewrite H1, H2. discriminate.
Qed.

(** C9 (amended). On a host whose clocks never change the listing is always
    produced. It has exactly one item for each date strictly after the epoch
    date and strictly before the current UTC date, no item for the epoch date
    or an earlier one and none for a date after the current one; each item
    carries its date's puzzle number, the count of days since the epoch; and
    the items are in strictly descending date order, newest first. *)
Theorem generateLocalArchive_spec (env : Env) :
  fixedOffset env ->
  exists items,
    generateLocalArchive env = Some items
    /\ (forall d, EPOCH_DATE < d < isoDate (now env) ->
          exists i, items !! i = Some (itemOf d)
            /\ forall j it, items !! j = Some it -> puzzle_date it = d -> j = i)
    /\ (forall it, it ∈ items ->
          EPOCH_DATE < puzzle_date it <= isoDate (now env)
          /\ puzzle_number it = puzzle_date it - EPOCH_DATE)
    /\ (forall i j a b, (i < j)%nat ->
          items !! i = Some a -> items !! j = Some b ->
          puzzle_date b < puzzle_date a).
Proof.
  intros Hfixed.
  eexists. split; [exact (generateLocalArchive_closed env Hfixed)|].
  pose proof (lastListed_range (now env)) as Hlast.
  split; [|split].
  - intros d Hd.
    eexists. split; [apply (archive_at (now env) d); lia|].
    intros j it Hj Hdate.
    destruct (archive_lookup (now env) j it Hj) as [-> Hlt].
    simpl in Hdate. lia.
  - intros it Hin. apply list_elem_of_lookup in Hin as [i Hi].
    destruct (archive_lookup (now env) i it Hi) as [-> Hlt].
    simpl. unfold getPuzzleNumber.
    replace (utcMidnight (lastListed (now env) - Z.of_nat i) - utcMidnight EPOCH_DATE)
      with ((lastListed (now env) - Z.of_nat i - EPOCH_DATE) * MS_PER_DAY)
      by (unfold utcMidnight; ring).
    rewrite Z.div_mul by discriminate. lia.
  - intros i j a b Hij Hi Hj.
    destruct (archive_lookup (now env) i a Hi) as [-> _].
    destruct (archive_lookup (now env) j b Hj) as [-> _].
    simpl. lia.
Qed.

Lemma generateLocalArchive_spec_witness :
  exists items,
    generateLocalArchive secondNoon = Some items
    /\ (forall d, EPOCH_DATE < d < isoDate (now secondNoon) ->
          exists i, items !! i = Some (itemOf d)
            /\ forall j it, items !! j = Some it -> puzzle_date it = d -> j = i)
    /\ (forall it, it ∈ items ->
          EPOCH_DATE < puzzle_date it <= isoDate (now secondNoon)
          /\ puzzle_number it = puzzle_date it - EPOCH_DATE)
    /\ (forall i j a b, (i < j)%nat ->
          items !! i = Some a -> items !! j = Some b ->
          puzzle_date b < puzzle_date a).
Proof.
  apply (generateLocalArchive_spec secondNoon).
  exists 0. intros t isUTC. reflexivity.
Defined.

(** At noon the current date itself is listed as well: its midnight is
    already in the past. *)
Example generateLocalArchive_at_noon :
  generateLocalArchive secondNoon
  = Some [itemOf (EPOCH_DATE + 2); itemOf (EPOCH_DATE + 1)].
Proof. vm_compute. reflexivity. Qed.

End Archive.

(** ** Leaderboard submission *)

Section Submission.
Import UseLeaderboard.

(** C10. Whenever [submitToLeaderboard] hands an entry to the store, whatever
    the store is, the entry's [guesses_used] is the caller's guess count if
    [won] is true and 5 if it is false, its [won] is the caller's, and the
    store afterwards is what the store's own submission call made of that
    entry. *)
Theorem submitToLeaderboard_guesses_used
    (Store : Type)
    (submitLeaderboardEntry : Entry -> Store -> JS.Completion SubmitResult * Store)
    (getLeaderboardForPuzzle : Z -> option string -> Store -> JS.Completion (list Row))
    (getUserRanking : Z -> string -> option string -> Store -> JS.Completion (option Z))
    (p : Props) (guessesUsed : Z) (won_ : bool) (h : Hook) (db : Store) (e : Entry) :
  let out :=
    submitToLeaderboard submitLeaderboardEntry getLeaderboardForPuzzle getUserRanking
      p guessesUsed won_ h db in
  out.1.1.2 = Some e ->
  guesses_used e = (if won_ then guessesUsed else 5)
  /\ won e = won_
  /\ out.2 = (submitLeaderboardEntry e db).2.
Proof.
  intros out. subst out. unfold submitToLeaderboard.
  destruct (discordUserId p) as [userId|]; [|discriminate].
  destruct (puzzleDate p) as [date|]; [|discriminate].
  destruct (negb (truthy (Some userId)) || isSubmitting h || hasSubmitted h);
    [discriminate|].
  match goal with
  | |- context [submitLeaderboardEntry ?x db] =>
      destruct (submitLeaderboardEntry x db) as [[result|msg] db'] eqn:Hsubmit
  end.
  - destruct (success result).
    + destruct (getUserRanking date userId (queryGuildId p) db');
        simpl; intros [= <-]; rewrite Hsubmit; repeat split.
    + simpl. intros [= <-]. rewrite Hsubmit. repeat split.
  - simpl. intros [= <-]. rewrite Hsubmit. repeat split.
Qed.

(** A loss reported with a guess count of 3 is stored with 5. *)
Lemma submitToLeaderboard_guesses_used_witness :
  guesses_used lossEntry = 5
  /\ won lossEntry = false
  /\ (submitToLeaderboard listSubmit listFetch listRanking player1 3 false noRows []).2
     = (listSubmit lossEntry []).2.
Proof.
  apply (submitToLeaderboard_guesses_used (list Row) listSubmit listFetch listRanking
           player1 3 false noRows [] lossEntry).
  vm_compute. reflexivity.
Defined.

(** The same submission, seen from the store and from the hook. *)
Example submitToLeaderboard_store :
  let out := submitToLeaderboard listSubmit listFetch listRanking player1 3 false noRows [] in
  out.2 = [{| entry := lossEntry; created_at := 0 |}]
  /\ hasSubmitted out.1.2 = true
  /\ puzzleLeaderboard out.1.2 = [{| entry := lossEntry; created_at := 0 |}].
Proof. vm_compute. repeat split. Qed.

End Submission.

(** ** Calendar *)

Section Calendar.
Import DailyPuzzle.

(** The puzzle number of a date is its count of days since the epoch, and 0
    for every date before the epoch. *)
Lemma getPuzzleNumber_days (dateStr : Z) :
  getPuzzleNumber dateStr = Z.max 0 (dateStr - EPOCH_DATE).
Proof.
  unfold getPuzzleNumber, utcMidnight.
  replace (dateStr * MS_PER_DAY - EPOCH_DATE * MS_PER_DAY)
    with ((dateStr - EPOCH_DATE) * MS_PER_DAY) by ring.
  rewrite Z.div_mul by discriminate. reflexivity.
Qed.

(** X1. The catalog is cyclic: from the epoch on, the date that lies a whole
    number of catalog lengths later gets the same index. *)
Theorem puzzle_cycle (dateStr totalPuzzles cycles : Z) :
  EPOCH_DATE <= dateStr -> 0 < totalPuzzles -> 0 <= cycles ->
  getPuzzleIndex (getPuzzleNumber (dateStr + cycles * totalPuzzles)) totalPuzzles
  = getPuzzleIndex (getPuzzleNumber dateStr) totalPuzzles.
Proof.
  intros Hd Hlen Hk. rewrite !getPuzzleNumber_days.
  assert (0 <= cycles * totalPuzzles) by (apply Z.mul_nonneg_nonneg; lia).
  rewrite !Z.max_r by lia.
  destruct (getPuzzleIndex_wraps (dateStr + cycles * totalPuzzles - EPOCH_DATE)
              totalPuzzles ltac:(lia) Hlen) as [-> _].
  destruct (getPuzzleIndex_wraps (dateStr - EPOCH_DATE) totalPuzzles ltac:(lia) Hlen)
    as [-> _].
  f_equal.
  replace (dateStr + cycles * totalPuzzles - EPOCH_DATE)
    with (dateStr - EPOCH_DATE + cycles * totalPuzzles) by ring.
  apply Z.mod_add. lia.
Qed.

Lemma puzzle_cycle_witness :
  getPuzzleIndex (getPuzzleNumber (20470 + 3 * 60)) 60
  = getPuzzleIndex (getPuzzleNumber 20470) 60.
Proof. apply (puzzle_cycle 20470 60 3); vm_compute; congruence. Defined.

(** The midnight that the countdown aims at is the one after the clock. *)
Lemma tomorrow_midnight (env : Env) :
  utcMidnight (isoDate (now env + MS_PER_DAY)) = utcMidnight (isoDate (now env) + 1)
  /\ utcMidnight (isoDate (now env)) <= now env < utcMidnight (isoDate (now env) + 1).
Proof.
  unfold utcMidnight, isoDate.
  replace (now env + MS_PER_DAY) with (now env + 1 * MS_PER_DAY) by ring.
  rewrite Z.div_add by discriminate.
  pose proof (Z.div_mod (now env) MS_PER_DAY ltac:(discriminate)) as Hdm.
  pose proof (Z.mod_pos_bound (now env) MS_PER_DAY ltac:(reflexivity)) as Hb.
  change MS_PER_DAY with 86400000 in *. lia.
Qed.

(** X2. The countdown is never zero and never more than a day, and it ends
    exactly at the next UTC midnight, whatever the host time zone. *)
Theorem getMillisecondsUntilNextPuzzle_next_midnight (env : Env) :
  let ms := getMillisecondsUntilNextPuzzle env in
  0 < ms <= MS_PER_DAY
  /\ now env + ms = utcMidnight (isoDate (now env) + 1).
Proof.
  unfold getMillisecondsUntilNextPuzzle. cbv zeta.
  destruct (tomorrow_midnight env) as [-> Hnow].
  unfold utcMidnight in *. change MS_PER_DAY with 86400000 in *. lia.
Qed.

Lemma String_length_app (s1 s2 : string) :
  String.length (s1 +:+ s2) = (String.length s1 + String.length s2)%nat.
Proof. induction s1 as [|c s1 IH]; simpl; [reflexivity | rewrite IH; reflexivity]. Qed.

Lemma padStart2_length (n : Z) :
  0 <= n < 100 -> String.length (padStart2 n) = 2%nat.
Proof.
  intros Hn.
  assert (Hall : forallb (fun k => Nat.eqb (String.length (padStart2 k)) 2)
                   (seqZ 0 100) = true) by (vm_compute; reflexivity).
  rewrite forallb_forall in Hall.
  apply Nat.eqb_eq, Hall. apply list_elem_of_In, elem_of_seqZ. lia.
Qed.

(** The three fields of the countdown. *)
Lemma formatCountdown_fields (ms : Z) :
  0 <= ms ->
  let totalSeconds := ms / 1000 in
  let hours := totalSeconds / 3600 in
  let minutes := Z.rem totalSeconds 3600 / 60 in
  let seconds := Z.rem totalSeconds 60 in
  0 <= hours /\ 0 <= minutes < 60 /\ 0 <= seconds < 60
  /\ hours * 3600 + minutes * 60 + seconds = totalSeconds.
Proof.
  intros Hms. cbv zeta.
  assert (Ht : 0 <= ms / 1000) by (apply Z.div_pos; lia).
  rewrite !Z.rem_mod_nonneg by lia.
  set (t := ms / 1000) in *. clearbody t. clear Hms.
  Z.div_mod_to_equations. lia.
Qed.

(** Below 100 hours the text has eight characters. *)
Lemma formatCountdown_length (ms : Z) :
  0 <= ms < 360000000 -> String.length (formatCountdown ms) = 8%nat.
Proof.
  intros Hms.
  destruct (formatCountdown_fields ms ltac:(lia)) as (Hh & Hm & Hs & Hsum).
  assert (Hh' : ms / 1000 / 3600 < 100) by (Z.div_mod_to_equations; lia).
  unfold formatCountdown. cbv zeta.
  rewrite !String_length_app, !padStart2_length by lia. reflexivity.
Qed.

(** X3. For a time below 100 hours the countdown text has the eight
    characters of [HH:MM:SS], and its three fields are the hours, the minutes
    below 60 and the seconds below 60 that add up to the whole seconds of the
    time. *)
Theorem formatCountdown_shape (ms : Z) :
  0 <= ms < 360000000 ->
  exists hours minutes seconds,
    formatCountdown ms
    = padStart2 hours +:+ ":" +:+ padStart2 minutes +:+ ":" +:+ padStart2 seconds
    /\ 0 <= hours < 100 /\ 0 <= minutes < 60 /\ 0 <= seconds < 60
    /\ hours * 3600 + minutes * 60 + seconds = ms / 1000
    /\ String.length (formatCountdown ms) = 8%nat.
Proof.
  intros Hms.
  destruct (formatCountdown_fields ms ltac:(lia)) as (Hh & Hm & Hs & Hsum).
  assert (Hh' : ms / 1000 / 3600 < 100) by (Z.div_mod_to_equations; lia).
  eexists _, _, _. split; [reflexivity|].
  repeat (split; [first [exact Hm | exact Hs | exact Hsum | lia]|]).
  apply formatCountdown_length. exact Hms.
Qed.

Lemma formatCountdown_shape_witness :
  exists hours minutes seconds,
    formatCountdown 3723004
    = padStart2 hours +:+ ":" +:+ padStart2 minutes +:+ ":" +:+ padStart2 seconds
    /\ 0 <= hours < 100 /\ 0 <= minutes < 60 /\ 0 <= seconds < 60
    /\ hours * 3600 + minutes * 60 + seconds = 3723004 / 1000
    /\ String.length (formatCountdown 3723004) = 8%nat.
Proof. apply (formatCountdown_shape 3723004). lia. Defined.

(** One hour, two minutes and three seconds; a full day, shown at midnight. *)
Example formatCountdown_samples :
  formatCountdown 3723004 = "01:02:03"%string
  /\ formatCountdown 86400000 = "24:00:00"%string
  /\ formatCountdown 0 = "00:00:00"%string.
Proof. vm_compute. repeat split. Qed.

(** X4. The text of the countdown to the next puzzle always has eight
    characters. *)
Theorem countdown_text_length (env : Env) :
  String.length (formatCountdown (getMillisecondsUntilNextPuzzle env)) = 8%nat.
Proof.
  apply formatCountdown_length. unfold getMillisecondsUntilNextPuzzle.
  destruct (tomorrow_midnight env) as [-> Hnow].
  unfold utcMidnight in *. change MS_PER_DAY with 86400000 in *. lia.
Qed.

(** X5. Outside debug mode a stored offset is ignored; in debug mode the
    offset just set is the one read back, and on a host whose clocks never
    change it moves the effective date, and with it the puzzle number from
    the epoch on, by that many days. *)
Theorem debug_offset_shifts (env : Env) (ls : Storage) (offset : Z) :
  fixedOffset env ->
  let ls' := setDebugDateOffset offset ls in
  (isDebugMode env = false ->
     getDebugDateOffset env ls' = 0
     /\ getEffectiveDate env ls' = isoDate (now env))
  /\ (isDebugMode env = true ->
     getDebugDateOffset env ls' = offset
     /\ getEffectiveDate env ls' = isoDate (now env) + offset
     /\ (EPOCH_DATE <= isoDate (now env) -> 0 <= offset ->
         getPuzzleNumber (getEffectiveDate env ls')
         = getPuzzleNumber (isoDate (now env)) + offset)).
Proof.
  intros Hfixed ls'.
  assert (Hshift : forall k, isoDate (addDays env (now env) k) = isoDate (now env) + k).
  { intros k. rewrite addDays_fixed by assumption. apply Z.div_add. discriminate. }
  split; intros Hdebug; unfold getEffectiveDate, getDebugDateOffset; rewrite Hdebug.
  - split; [reflexivity|]. rewrite Hshift. lia.
  - simpl. split; [reflexivity|]. split; [apply Hshift|].
    intros Hepoch Hoff. rewrite Hshift, !getPuzzleNumber_days. lia.
Qed.

Lemma debug_offset_shifts_witness :
  let ls' := setDebugDateOffset 3 emptyStorage in
  (isDebugMode debugNoon = false ->
     getDebugDateOffset debugNoon ls' = 0
     /\ getEffectiveDate debugNoon ls' = isoDate (now debugNoon))
  /\ (isDebugMode debugNoon = true ->
     getDebugDateOffset debugNoon ls' = 3
     /\ getEffectiveDate debugNoon ls' = isoDate (now debugNoon) + 3
     /\ (EPOCH_DATE <= isoDate (now debugNoon) -> 0 <= 3 ->
         getPuzzleNumber (getEffectiveDate debugNoon ls')
         = getPuzzleNumber (isoDate (now debugNoon)) + 3)).
Proof.
  apply (debug_offset_shifts debugNoon emptyStorage 3).
  exists 0. intros t isUTC. reflexivity.
Defined.

End Calendar.

(** ** Today's game *)

Section TodayGame.
Import DailyPuzzle UseDailyPuzzle.

Lemma getEffectiveDate_saveGameState (env : Env) (state : GameState) (ls : Storage) :
  getEffectiveDate env (saveGameState state ls) = getEffectiveDate env ls.
Proof. reflexivity. Qed.

(** X6. [initializeTodayGame] always returns a game of the effective date
    that is not finished, and stores it; it leaves the statistics alone; and
    calling it again changes nothing more and returns the stored game. *)
Theorem initializeTodayGame_today (env : Env) (ls : Storage) :
  let out := initializeTodayGame env ls in
  lastPlayedDate out.1 = Some (getEffectiveDate env ls)
  /\ gameStatus out.1 <> Won /\ gameStatus out.1 <> Lost
  /\ guesses (loadGameState out.2) = guesses out.1
  /\ gameStatus (loadGameState out.2) = gameStatus out.1
  /\ slot_STATS out.2 = slot_STATS ls
  /\ initializeTodayGame env out.2 = (loadGameState out.2, out.2).
Proof.
  cbv zeta. unfold initializeTodayGame, canPlayToday.
  destruct (lastPlayedDate (loadGameState ls)) as [lastPlayed|] eqn:Hlast.
  - destruct (Z.eqb_spec lastPlayed (getEffectiveDate env ls)) as [->|Hne]; simpl.
    + destruct (bool_decide (gameStatus (loadGameState ls) = Won)) eqn:Hw; simpl.
      { rewrite Z.eqb_refl. simpl. repeat split; discriminate. }
      destruct (bool_decide (gameStatus (loadGameState ls) = Lost)) eqn:Hl; simpl.
      { rewrite Z.eqb_refl. simpl. repeat split; discriminate. }
      apply bool_decide_eq_false in Hw. apply bool_decide_eq_false in Hl.
      rewrite Hlast, Z.eqb_refl. simpl.
      rewrite (bool_decide_eq_false_2 _ Hw), (bool_decide_eq_false_2 _ Hl). simpl.
      repeat split; assumption.
    + rewrite Z.eqb_refl. simpl. repeat split; discriminate.
  - simpl. rewrite Z.eqb_refl. simpl. repeat split; discriminate.
Qed.

(** X7. A finished game of today is kept by the hook but not by
    [initializeTodayGame]: [canPlayToday] answers that play is over and hands
    the game back, the hook starts from that game and writes nothing, while
    [initializeTodayGame] called on the same storage replaces it by an open
    game without guesses. *)
Theorem finished_game_kept_by_hook_only (env : Env) (ls : Storage) :
  lastPlayedDate (loadGameState ls) = Some (getEffectiveDate env ls) ->
  gameStatus (loadGameState ls) = Won \/ gameStatus (loadGameState ls) = Lost ->
  canPlayToday env ls
  = {| canPlay := false; reason := already_completed;
       existingState := Some (loadGameState ls) |}
  /\ initialGameState env ls = (loadGameState ls, ls)
  /\ guesses (initializeTodayGame env ls).1 = []
  /\ gameStatus (initializeTodayGame env ls).1 = InProgress
  /\ guesses (loadGameState (initializeTodayGame env ls).2) = [].
Proof.
  intros Hdate Hterm.
  assert (Hcp : canPlayToday env ls
                = {| canPlay := false; reason := already_completed;
                     existingState := Some (loadGameState ls) |}).
  { unfold canPlayToday. rewrite Hdate, Z.eqb_refl. simpl.
    destruct Hterm as [H|H]; rewrite H; reflexivity. }
  split; [exact Hcp|].
  unfold initialGameState, initializeTodayGame. rewrite Hcp. simpl.
  repeat split.
Qed.

Lemma finished_game_kept_by_hook_only_witness :
  canPlayToday launchNoon lostOnLaunch
  = {| canPlay := false; reason := already_completed;
       existingState := Some (loadGameState lostOnLaunch) |}
  /\ initialGameState launchNoon lostOnLaunch = (loadGameState lostOnLaunch, lostOnLaunch)
  /\ guesses (initializeTodayGame launchNoon lostOnLaunch).1 = []
  /\ gameStatus (initializeTodayGame launchNoon lostOnLaunch).1 = InProgress
  /\ guesses (loadGameState (initializeTodayGame launchNoon lostOnLaunch).2) = [].
Proof.
  apply (finished_game_kept_by_hook_only launchNoon lostOnLaunch).
  - reflexivity.
  - right. reflexivity.
Defined.

(** X8. On a new day the stored game, finished or not, is replaced by an
    open game of the effective date without guesses, and the statistics are
    not touched: a game left unfinished the day before is neither counted as
    played nor does it end the streak. *)
Theorem new_day_starts_fresh (env : Env) (ls : Storage) (lastPlayed : Z) :
  lastPlayedDate (loadGameState ls) = Some lastPlayed ->
  lastPlayed <> getEffectiveDate env ls ->
  let out := initialGameState env ls in
  out.1 = {| lastPlayedDate := Some (getEffectiveDate env ls);
             lastPuzzleNumber := Some (getPuzzleNumber (getEffectiveDate env ls));
             guesses := [];
             gameStatus := InProgress;
             modalShown := None |}
  /\ slot_STATE out.2 = Some out.1
  /\ loadStats out.2 = loadStats ls.
Proof.
  intros Hlast Hne. cbv zeta.
  unfold initialGameState, initializeTodayGame, canPlayToday. rewrite Hlast.
  destruct (Z.eqb_spec lastPlayed (getEffectiveDate env ls)) as [|_]; [contradiction|].
  simpl. repeat split.
Qed.

Lemma new_day_starts_fresh_witness :
  let out := initialGameState (noonAfter 1) midGame in
  out.1 = {| lastPlayedDate := Some (getEffectiveDate (noonAfter 1) midGame);
             lastPuzzleNumber :=
               Some (getPuzzleNumber (getEffectiveDate (noonAfter 1) midGame));
             guesses := [];
             gameStatus := InProgress;
             modalShown := None |}
  /\ slot_STATE out.2 = Some out.1
  /\ loadStats out.2 = loadStats midGame.
Proof.
  apply (new_day_starts_fresh (noonAfter 1) midGame 20468).
  - reflexivity.
  - vm_compute. discriminate.
Defined.

(** X9. Marking the result modal as shown sets the flag and keeps the date,
    the puzzle number, the guesses and the status of the stored game and the
    statistics; doing it twice is the same as doing it once. *)
Theorem markModalShown_keeps_game (ls : Storage) :
  let out := markModalShown ls in
  modalShown out.1 = Some true
  /\ lastPlayedDate out.1 = lastPlayedDate (loadGameState ls)
  /\ lastPuzzleNumber out.1 = lastPuzzleNumber (loadGameState ls)
  /\ guesses out.1 = guesses (loadGameState ls)
  /\ gameStatus out.1 = gameStatus (loadGameState ls)
  /\ loadGameState out.2 = out.1
  /\ slot_STATS out.2 = slot_STATS ls
  /\ markModalShown out.2 = out.
Proof. cbv zeta. unfold markModalShown. repeat split. Qed.

Lemma recordAll_app (keys1 keys2 : list string) (ls : Storage) :
  recordAll (keys1 ++ keys2) ls = recordAll keys2 (recordAll keys1 ls).
Proof. unfold recordAll. apply fold_left_app. Qed.

(** X10. [recordGuess] of [dailyPuzzle.js] never ends a game: on a game in
    progress any run of guesses, however long, is appended in order while
    the status stays [in_progress] and the statistics stay as they are. *)
Theorem recordGuess_never_ends (playerKeys : list string) (ls : Storage) :
  gameStatus (loadGameState ls) = InProgress ->
  guesses (loadGameState (recordAll playerKeys ls))
  = guesses (loadGameState ls) ++ playerKeys
  /\ gameStatus (loadGameState (recordAll playerKeys ls)) = InProgress
  /\ slot_STATS (recordAll playerKeys ls) = slot_STATS ls.
Proof.
  intros Hstatus.
  induction playerKeys as [|key keys IH] using rev_ind.
  - simpl. rewrite app_nil_r. repeat split. assumption.
  - destruct IH as (Hg & Hs & Hstats).
    rewrite recordAll_app. simpl.
    unfold DailyPuzzle.recordGuess at 1 2 3. rewrite Hs. simpl.
    rewrite Hg, Hstats, app_assoc. repeat split. exact Hs.
Qed.

Lemma recordGuess_never_ends_witness :
  guesses (loadGameState (recordAll ["c"; "d"; "e"; "f"; "g"]%string midGame))
  = guesses (loadGameState midGame) ++ ["c"; "d"; "e"; "f"; "g"]%string
  /\ gameStatus (loadGameState (recordAll ["c"; "d"; "e"; "f"; "g"]%string midGame))
     = InProgress
  /\ slot_STATS (recordAll ["c"; "d"; "e"; "f"; "g"]%string midGame) = slot_STATS midGame.
Proof.
  apply (recordGuess_never_ends ["c"; "d"; "e"; "f"; "g"]%string midGame). reflexivity.
Defined.

(** X11. The hook's [recordGuess] updates the statistics exactly when the
    guess ends the game. A guess that leaves the game open leaves the stored
    statistics as they are. A guess that ends it adds one game played, one
    game won if it was correct, and on a win counts the game under the number
    of guesses used, the guess itself included; on a loss the streak is 0. *)
Theorem recordGuess_stats_once
    (env : Env) (h : Hook) (ls : Storage) (playerKey : string) (isCorrect : bool) :
  gameStatus (gameState h) <> Won ->
  gameStatus (gameState h) <> Lost ->
  let k := Z.of_nat (length (guesses (gameState h))) in
  let out := recordGuess playerKey isCorrect env h ls in
  let before := loadStats ls in
  let after := loadStats out.2 in
  (isGameOver out.1.1 = true
   <-> gameStatus (newState out.1.1) = Won \/ gameStatus (newState out.1.1) = Lost)
  /\ (isGameOver out.1.1 = false -> slot_STATS out.2 = slot_STATS ls)
  /\ (isGameOver out.1.1 = true ->
        gamesPlayed after = gamesPlayed before + 1
        /\ gamesWon after = gamesWon before + (if isCorrect then 1 else 0)
        /\ (isCorrect = true ->
              JS.get (guessDistribution after) k
              = Some (JS.or0 (JS.get (guessDistribution before) k) + 1))
        /\ (isCorrect = false ->
              currentStreak after = 0
              /\ guessDistribution after = guessDistribution before)).
Proof.
  intros Hw Hl k out before after. subst after before out.
  unfold recordGuess. rewrite (alreadyCompleted_false h Hw Hl).
  destruct isCorrect; simpl.
  - split; [split; [left; reflexivity | reflexivity]|].
    split; [discriminate|]. intros _.
    split; [reflexivity|]. split; [reflexivity|]. split; [|discriminate].
    intros _. rewrite length_app. simpl.
    replace (Z.of_nat (length (guesses (gameState h)) + 1) - 1) with k by (subst k; lia).
    apply get_set_eq. subst k. lia.
  - destruct (MAX_GUESSES <=? Z.of_nat (length (guesses (gameState h) ++ [playerKey])));
      simpl.
    + split; [split; [right; reflexivity | reflexivity]|].
      split; [discriminate|]. intros _.
      split; [reflexivity|]. split; [rewrite Z.add_0_r; reflexivity|].
      split; [discriminate|]. intros _. split; reflexivity.
    + split; [split; [discriminate | intros [H|H]; discriminate]|].
      split; [reflexivity | discriminate].
Qed.

Lemma recordGuess_stats_once_witness :
  let k := Z.of_nat (length (guesses (gameState lastChance))) in
  let out := recordGuess "kohli" true launchNoon lastChance emptyStorage in
  let before := loadStats emptyStorage in
  let after := loadStats out.2 in
  (isGameOver out.1.1 = true
   <-> gameStatus (newState out.1.1) = Won \/ gameStatus (newState out.1.1) = Lost)
  /\ (isGameOver out.1.1 = false -> slot_STATS out.2 = slot_STATS emptyStorage)
  /\ (isGameOver out.1.1 = true ->
        gamesPlayed after = gamesPlayed before + 1
        /\ gamesWon after = gamesWon before + 1
        /\ (true = true ->
              JS.get (guessDistribution after) k
              = Some (JS.or0 (JS.get (guessDistribution before) k) + 1))
        /\ (true = false ->
              currentStreak after = 0
              /\ guessDistribution after = guessDistribution before)).
Proof.
  apply (recordGuess_stats_once launchNoon lastChance emptyStorage "kohli" true);
    simpl; discriminate.
Defined.

(** X12. Clearing the data makes a new user of everyone, whatever was
    stored: [canPlayToday] answers ['new_user'], the statistics read as the
    defaults, the debug offset reads 0 also in debug mode, the hook starts an
    open game of today's date without guesses, and clearing once more
    changes nothing. *)
Theorem clearAllData_new_user (env : Env) (ls : Storage) :
  let cleared := clearAllData ls in
  canPlayToday env cleared
  = {| canPlay := true; reason := new_user; existingState := None |}
  /\ loadStats cleared = getDefaultStats
  /\ loadGameState cleared = getDefaultGameState
  /\ getDebugDateOffset env cleared = 0
  /\ (initialGameState env cleared).1
     = {| lastPlayedDate := Some (getEffectiveDate env cleared);
          lastPuzzleNumber := Some (getPuzzleNumber (getEffectiveDate env cleared));
          guesses := [];
          gameStatus := InProgress;
          modalShown := None |}
  /\ slot_STATS (initialGameState env cleared).2 = None
  /\ clearAllData cleared = cleared.
Proof.
  cbv zeta.
  assert (Hcan : canPlayToday env (clearAllData ls)
                 = {| canPlay := true; reason := new_user; existingState := None |})
    by reflexivity.
  split; [exact Hcan|]. split; [reflexivity|]. split; [reflexivity|].
  split; [unfold getDebugDateOffset; destruct (isDebugMode env); reflexivity|].
  unfold initialGameState, initializeTodayGame. rewrite Hcan. simpl.
  repeat split.
Qed.

End TodayGame.

(** ** Invariants of play and of the statistics *)

Section Invariants.
Import DailyPuzzle UseDailyPuzzle.

Lemma playAll_cons (env : Env) (turn : string * bool) (turns : list (string * bool))
    (h : Hook) (ls : Storage) :
  playAll env (turn :: turns) h ls
  = playAll env turns (recordGuess turn.1 turn.2 env h ls).1.2
                      (recordGuess turn.1 turn.2 env h ls).2.
Proof. reflexivity. Qed.

(** After the end of the game a run of guesses leaves the hook state and the
    storage as they are. *)
Lemma playAll_finished (env : Env) (turns : list (string * bool)) (h : Hook) (ls : Storage) :
  gameStatus (gameState h) = Won \/ gameStatus (gameState h) = Lost ->
  playAll env turns h ls = (h, ls).
Proof.
  intros Hterm. induction turns as [|turn turns IH]; [reflexivity|].
  rewrite playAll_cons. unfold recordGuess.
  rewrite (alreadyCompleted_true h Hterm). simpl. exact IH.
Qed.

(** One guess on an open, consistent game: the game stays consistent and has
    that one guess more. *)
Lemma recordGuess_consistent (env : Env) (h : Hook) (ls : Storage)
    (playerKey : string) (isCorrect : bool) :
  gameStatus (gameState h) <> Won -> gameStatus (gameState h) <> Lost ->
  consistent (gameState h) ->
  consistent (gameState (recordGuess playerKey isCorrect env h ls).1.2)
  /\ guesses (gameState (recordGuess playerKey isCorrect env h ls).1.2)
     = guesses (gameState h) ++ [playerKey].
Proof.
  intros Hw Hl (Hmax & Hopen & _ & _).
  assert (Hk : Z.of_nat (length (guesses (gameState h))) < MAX_GUESSES).
  { apply Hopen. destruct (gameStatus (gameState h)); tauto. }
  unfold recordGuess. rewrite (alreadyCompleted_false h Hw Hl).
  assert (Hlen : Z.of_nat (length (guesses (gameState h) ++ [playerKey]))
                 = Z.of_nat (length (guesses (gameState h))) + 1)
    by (rewrite length_app; simpl; lia).
  destruct isCorrect; simpl.
  - split; [|reflexivity]. unfold consistent. simpl. rewrite Hlen.
    repeat split; try lia; intros H; try discriminate; destruct H; discriminate.
  - destruct (Z.leb_spec MAX_GUESSES
                (Z.of_nat (length (guesses (gameState h) ++ [playerKey])))) as [Hge|Hlt];
      simpl; (split; [|reflexivity]); unfold consistent; simpl; rewrite Hlen in *;
      repeat split; try lia; intros H; try discriminate; destruct H; discriminate.
Qed.

(** X13. Play keeps the game consistent. From a consistent game, after any
    run of guesses through the hook, the game has at most [MAX_GUESSES]
    guesses, fewer while it is open, exactly that many if it is lost and at
    least one if it is won; and the guesses recorded are the earlier ones
    followed by an initial part of the run, in order: guesses made after the
    end are dropped. *)
Theorem playAll_consistent (env : Env) (turns : list (string * bool))
    (h : Hook) (ls : Storage) :
  consistent (gameState h) ->
  consistent (gameState (playAll env turns h ls).1)
  /\ exists n, guesses (gameState (playAll env turns h ls).1)
               = guesses (gameState h) ++ take n (turns.*1).
Proof.
  revert h ls. induction turns as [|turn turns IH]; intros h ls Hcons.
  - split; [exact Hcons|]. exists 0%nat. simpl. rewrite app_nil_r. reflexivity.
  - destruct (decide (gameStatus (gameState h) = Won \/ gameStatus (gameState h) = Lost))
      as [Hterm|Hopen].
    + rewrite (playAll_finished env _ h ls Hterm). simpl.
      split; [exact Hcons|]. exists 0%nat. simpl. rewrite app_nil_r. reflexivity.
    + assert (Hw : gameStatus (gameState h) <> Won) by tauto.
      assert (Hl : gameStatus (gameState h) <> Lost) by tauto.
      destruct (recordGuess_consistent env h ls turn.1 turn.2 Hw Hl Hcons) as [Hc1 Hg1].
      rewrite playAll_cons.
      destruct (IH _ (recordGuess turn.1 turn.2 env h ls).2 Hc1) as [Hc [n Hn]].
      split; [exact Hc|]. exists (S n). rewrite Hn, Hg1, <- app_assoc. reflexivity.
Qed.

Lemma playAll_consistent_witness :
  consistent (gameState (playAll launchNoon
                           [("a", false); ("kohli", true); ("b", false)]%string
                           freshHook emptyStorage).1)
  /\ exists n, guesses (gameState (playAll launchNoon
                                    [("a", false); ("kohli", true); ("b", false)]%string
                                    freshHook emptyStorage).1)
               = guesses (gameState freshHook)
                 ++ take n ([("a", false); ("kohli", true); ("b", false)]%string.*1).
Proof.
  apply (playAll_consistent launchNoon [("a", false); ("kohli", true); ("b", false)]%string
           freshHook emptyStorage).
  unfold consistent. simpl. repeat split; try lia; discriminate.
Defined.

(** Six misses in a row on a fresh game: five are recorded, the game is
    lost, and it was counted once. *)
Example six_misses :
  let out := playAll launchNoon
               [("a", false); ("b", false); ("c", false); ("d", false); ("e", false);
                ("f", false)]%string freshHook emptyStorage in
  guesses (gameState out.1) = ["a"; "b"; "c"; "d"; "e"]%string
  /\ gameStatus (gameState out.1) = Lost
  /\ gamesPlayed (loadStats out.2) = 1.
Proof. vm_compute. repeat split. Qed.

(** X14. The statistics update keeps the counters sensible on every host:
    if the wins are within the games played and the current streak within
    the longest one before, they are so afterwards; and the games played
    grow by one while the wins and the longest streak never shrink. *)
Theorem updateStatsOnComplete_keeps_statsOk
    (won_ : bool) (guessCount : Z) (env : Env) (ls : Storage) :
  statsOk (loadStats ls) ->
  let after := (updateStatsOnComplete won_ guessCount env ls).1 in
  statsOk after
  /\ gamesPlayed after = gamesPlayed (loadStats ls) + 1
  /\ gamesWon (loadStats ls) <= gamesWon after
  /\ maxStreak (loadStats ls) <= maxStreak after.
Proof.
  intros [Hwins Hstreak]. unfold updateStatsOnComplete, statsOk.
  destruct won_; simpl.
  - repeat case_bool_decide; simpl; lia.
  - lia.
Qed.

Lemma updateStatsOnComplete_keeps_statsOk_witness :
  let after := (updateStatsOnComplete true 2 dayAfterChange onStreak).1 in
  statsOk after
  /\ gamesPlayed after = gamesPlayed (loadStats onStreak) + 1
  /\ gamesWon (loadStats onStreak) <= gamesWon after
  /\ maxStreak (loadStats onStreak) <= maxStreak after.
Proof.
  apply (updateStatsOnComplete_keeps_statsOk true 2 dayAfterChange onStreak).
  unfold statsOk. simpl. lia.
Defined.

End Invariants.

(** ** The guess handlers *)

Section Handlers.
Import DailyPuzzle App AppPlay.

Lemma accepting_guard (g : Game) (h : UseDailyPuzzle.Hook) (playerKey : string) :
  accepting g h playerKey ->
  gameWon g || gameOver g || bool_decide (playerKey ∈ usedPlayers g)
  || UseDailyPuzzle.alreadyCompleted h || isChecking g = false.
Proof.
  intros (-> & -> & Hused & -> & ->).
  rewrite bool_decide_eq_false_2 by assumption. reflexivity.
Qed.

(** A guess of a player already marked as used changes nothing. *)
Lemma handlePlayerGuess_used
    (validateGuess : Z -> string -> JS.Completion (option Validation))
    (players : list Player) (currentPuzzle : option Puzzle) (env : Env)
    (playerKey : string) (g : Game) (h : UseDailyPuzzle.Hook) (ls : Storage) :
  playerKey ∈ usedPlayers g ->
  handlePlayerGuess validateGuess players currentPuzzle env playerKey g h ls = (g, h, ls).
Proof.
  intros Hused. unfold handlePlayerGuess.
  rewrite (bool_decide_eq_true_2 _ Hused), orb_true_r. reflexivity.
Qed.

(** X15. A player can be tried once: whatever the state and whatever the
    validation service answers, handling a guess of the same player a second
    time changes nothing, neither in the component nor in the hook nor in the
    storage. *)
Theorem handlePlayerGuess_once
    (validateGuess : Z -> string -> JS.Completion (option Validation))
    (players : list Player) (currentPuzzle : option Puzzle) (env : Env)
    (playerKey : string) (g : Game) (h : UseDailyPuzzle.Hook) (ls : Storage) :
  let once := handlePlayerGuess validateGuess players currentPuzzle env playerKey g h ls in
  handlePlayerGuess validateGuess players currentPuzzle env playerKey
    once.1.1 once.1.2 once.2 = once.
Proof.
  cbv zeta.
  destruct (gameWon g || gameOver g || bool_decide (playerKey ∈ usedPlayers g)
            || UseDailyPuzzle.alreadyCompleted h || isChecking g) eqn:Hguard.
  - assert (Hsame : handlePlayerGuess validateGuess players currentPuzzle env playerKey
                      g h ls = (g, h, ls))
      by (unfold handlePlayerGuess; rewrite Hguard; reflexivity).
    rewrite Hsame. simpl. exact Hsame.
  - assert (Hmarked : playerKey ∈ usedPlayers
              (handlePlayerGuess validateGuess players currentPuzzle env playerKey
                 g h ls).1.1).
    { unfold handlePlayerGuess. rewrite Hguard.
      destruct (scoreGuess validateGuess players currentPuzzle playerKey);
        simpl; set_solver. }
    rewrite (handlePlayerGuess_used _ _ _ _ _ _ _ _ Hmarked).
    destruct (handlePlayerGuess validateGuess players currentPuzzle env playerKey g h ls)
      as [[g' h'] ls']. reflexivity.
Qed.

(** X16. A guess of a player that neither the service nor the catalog knows
    is not an attempt: the hook state, the storage and the feedback list stay
    as they are and the game flags are unchanged; but the player is marked as
    used. *)
Theorem handlePlayerGuess_unknown
    (validateGuess : Z -> string -> JS.Completion (option Validation))
    (players : list Player) (currentPuzzle : option Puzzle) (env : Env)
    (playerKey : string) (g : Game) (h : UseDailyPuzzle.Hook) (ls : Storage) :
  accepting g h playerKey ->
  scoreGuess validateGuess players currentPuzzle playerKey = None ->
  let out := handlePlayerGuess validateGuess players currentPuzzle env playerKey g h ls in
  out.1.2 = h /\ out.2 = ls
  /\ feedbackList out.1.1 = feedbackList g
  /\ gameWon out.1.1 = false /\ gameOver out.1.1 = false /\ isChecking out.1.1 = false
  /\ usedPlayers out.1.1 = {[playerKey]} ∪ usedPlayers g.
Proof.
  intros Hacc Hscore. cbv zeta. unfold handlePlayerGuess.
  rewrite (accepting_guard g h playerKey Hacc), Hscore. simpl.
  destruct Hacc as (Hw & Ho & _). repeat split; assumption.
Qed.

Lemma handlePlayerGuess_unknown_witness :
  let out := handlePlayerGuess serviceDown [kohli] (Some final2024) launchNoon "nobody"
               newGame freshHook emptyStorage in
  out.1.2 = freshHook /\ out.2 = emptyStorage
  /\ feedbackList out.1.1 = feedbackList newGame
  /\ gameWon out.1.1 = false /\ gameOver out.1.1 = false /\ isChecking out.1.1 = false
  /\ usedPlayers out.1.1 = {[ "nobody"%string ]} ∪ usedPlayers newGame.
Proof.
  apply (handlePlayerGuess_unknown serviceDown [kohli] (Some final2024) launchNoon
           "nobody" newGame freshHook emptyStorage).
  - unfold accepting. simpl. repeat split; try reflexivity. set_solver.
  - vm_compute. reflexivity.
Defined.

(** X17. An accepted guess is one attempt in both records. The guess is
    appended to the game's guesses and its feedback to the feedback list; the
    stored game is won exactly when the feedback shown marks the target, and
    so is the component's own flag; and if the feedback list had one item per
    guess before, it has so afterwards, and then the component's [gameOver]
    flag is set exactly when the stored game is lost. *)
Theorem handlePlayerGuess_accepted
    (validateGuess : Z -> string -> JS.Completion (option Validation))
    (players : list Player) (currentPuzzle : option Puzzle) (env : Env)
    (playerKey : string) (g : Game) (h : UseDailyPuzzle.Hook) (ls : Storage)
    (feedback : Feedback) :
  accepting g h playerKey ->
  scoreGuess validateGuess players currentPuzzle playerKey = Some feedback ->
  let out := handlePlayerGuess validateGuess players currentPuzzle env playerKey g h ls in
  let state := UseDailyPuzzle.gameState out.1.2 in
  guesses state = guesses (UseDailyPuzzle.gameState h) ++ [playerKey]
  /\ feedbackList out.1.1 = feedbackList g ++ [feedback]
  /\ (gameStatus state = Won <-> isMVP feedback = true)
  /\ gameWon out.1.1 = isMVP feedback
  /\ (length (feedbackList g) = length (guesses (UseDailyPuzzle.gameState h)) ->
        length (feedbackList out.1.1) = length (guesses state)
        /\ (gameOver out.1.1 = true <-> gameStatus state = Lost)).
Proof.
  intros Hacc Hscore. cbv zeta. unfold handlePlayerGuess.
  rewrite (accepting_guard g h playerKey Hacc), Hscore.
  destruct Hacc as (Hw & Ho & _ & Hopen & _).
  unfold UseDailyPuzzle.recordGuess. rewrite Hopen. simpl.
  rewrite Hw, Ho.
  destruct (isMVP feedback); simpl.
  - split; [reflexivity|]. split; [reflexivity|]. split; [tauto|].
    split; [reflexivity|]. intros Hsync. rewrite !length_app, Hsync.
    split; [reflexivity|]. split; discriminate.
  - assert (Hlen : length (feedbackList g) = length (guesses (UseDailyPuzzle.gameState h)) ->
                   length (feedbackList g ++ [feedback])
                   = length (guesses (UseDailyPuzzle.gameState h) ++ [playerKey])).
    { intros Hsync. rewrite !length_app, Hsync. reflexivity. }
    destruct (MAX_GUESSES <=? Z.of_nat
                (length (guesses (UseDailyPuzzle.gameState h) ++ [playerKey]))) eqn:Hfull;
      simpl.
    + split; [reflexivity|]. split; [reflexivity|]. split; [split; discriminate|].
      split; [reflexivity|]. intros Hsync. split; [exact (Hlen Hsync)|].
      rewrite (Hlen Hsync), Hfull. split; reflexivity.
    + split; [reflexivity|]. split; [reflexivity|]. split; [split; discriminate|].
      split; [reflexivity|]. intros Hsync. split; [exact (Hlen Hsync)|].
      rewrite (Hlen Hsync), Hfull. split; discriminate.
Qed.

Lemma handlePlayerGuess_accepted_witness :
  let out := handlePlayerGuess serviceDown [kohli] (Some final2024) launchNoon "kohli"
               newGame freshHook emptyStorage in
  let state := UseDailyPuzzle.gameState out.1.2 in
  guesses state = guesses (UseDailyPuzzle.gameState freshHook) ++ ["kohli"%string]
  /\ feedbackList out.1.1 = feedbackList newGame ++ [hit]
  /\ (gameStatus state = Won <-> isMVP hit = true)
  /\ gameWon out.1.1 = isMVP hit
  /\ (length (feedbackList newGame)
       = length (guesses (UseDailyPuzzle.gameState freshHook)) ->
        length (feedbackList out.1.1) = length (guesses state)
        /\ (gameOver out.1.1 = true <-> gameStatus state = Lost)).
Proof.
  apply (handlePlayerGuess_accepted serviceDown [kohli] (Some final2024) launchNoon
           "kohli" newGame freshHook emptyStorage hit).
  - unfold accepting. simpl. repeat split; try reflexivity. set_solver.
  - vm_compute. reflexivity.
Defined.

(** X18. When the validation service throws, resolves to nothing or resolves
    to an object with an [error], and when there is no daily puzzle, the
    guess is scored locally; when the service resolves to an object without
    [error] for a puzzle with an id, that object is the feedback, whatever
    the local scoring would say. *)
Theorem scoreGuess_fallback
    (validateGuess : Z -> string -> JS.Completion (option Validation))
    (players : list Player) (currentPuzzle : option Puzzle) (playerKey : string) :
  let local := generateNewFeedback players currentPuzzle playerKey None in
  match currentPuzzle with
  | None => scoreGuess validateGuess players currentPuzzle playerKey = None
  | Some puzzle =>
      (puzzleId puzzle <> 0 ->
       match validateGuess (puzzleId puzzle) playerKey with
       | JS.Normal (Some answer) =>
           (truthy (validationError answer) = false ->
            scoreGuess validateGuess players currentPuzzle playerKey
            = Some (validationFeedback answer))
           /\ (truthy (validationError answer) = true ->
               scoreGuess validateGuess players currentPuzzle playerKey = local)
       | _ => scoreGuess validateGuess players currentPuzzle playerKey = local
       end)
      /\ (puzzleId puzzle = 0 ->
          scoreGuess validateGuess players currentPuzzle playerKey = local)
  end.
Proof.
  cbv zeta. unfold scoreGuess. destruct currentPuzzle as [puzzle|].
  - split.
    + intros Hid. apply Z.eqb_neq in Hid. rewrite Hid. simpl.
      destruct (validateGuess (puzzleId puzzle) playerKey) as [[answer|]|msg];
        try reflexivity.
      split; intros ->; reflexivity.
    + intros ->. reflexivity.
  - unfold generateNewFeedback. simpl.
    destruct (findPlayer players playerKey); reflexivity.
Qed.

(** The service's word is taken as it is: with a service that calls every
    guess the target, a player missing from the catalog wins the game. *)
Example service_is_trusted :
  let out := handlePlayerGuess serviceYes [kohli] (Some final2024) launchNoon "nobody"
               newGame freshHook emptyStorage in
  gameStatus (UseDailyPuzzle.gameState out.1.2) = Won
  /\ generateNewFeedback [kohli] (Some final2024) "nobody" None = None.
Proof. vm_compute. repeat split. Qed.

Lemma recordGuess_guesses (env : Env) (h : UseDailyPuzzle.Hook) (ls : Storage)
    (playerKey : string) (isCorrect : bool) :
  UseDailyPuzzle.alreadyCompleted h = false ->
  guesses (UseDailyPuzzle.gameState
             (UseDailyPuzzle.recordGuess playerKey isCorrect env h ls).1.2)
  = guesses (UseDailyPuzzle.gameState h) ++ [playerKey]
  /\ guesses (loadGameState (UseDailyPuzzle.recordGuess playerKey isCorrect env h ls).2)
     = guesses (UseDailyPuzzle.gameState h) ++ [playerKey].
Proof.
  intros Hopen. unfold UseDailyPuzzle.recordGuess. rewrite Hopen.
  destruct isCorrect; [|destruct (MAX_GUESSES <=? _)]; simpl; split; reflexivity.
Qed.

(** X19. Reloading reproduces the feedback of the session when guesses are
    scored as the local scoring does (the service is down, or agrees with
    it): if, before a guess is handled, the stored guesses are those of the
    hook and the feedback list is the one rebuilt from them, then the same
    holds afterwards. *)
Theorem rebuiltFeedback_preserved
    (validateGuess : Z -> string -> JS.Completion (option Validation))
    (players : list Player) (currentPuzzle : option Puzzle) (env : Env)
    (playerKey : string) (g : Game) (h : UseDailyPuzzle.Hook) (ls : Storage) :
  scoreGuess validateGuess players currentPuzzle playerKey
  = generateNewFeedback players currentPuzzle playerKey None ->
  guesses (loadGameState ls) = guesses (UseDailyPuzzle.gameState h) ->
  feedbackList g
  = rebuiltFeedback players currentPuzzle (guesses (UseDailyPuzzle.gameState h)) ->
  let out := handlePlayerGuess validateGuess players currentPuzzle env playerKey g h ls in
  guesses (loadGameState out.2) = guesses (UseDailyPuzzle.gameState out.1.2)
  /\ feedbackList out.1.1
     = rebuiltFeedback players currentPuzzle (guesses (loadGameState out.2)).
Proof.
  intros Hlocal Hstore Hsync. cbv zeta. unfold handlePlayerGuess.
  destruct (gameWon g || gameOver g || bool_decide (playerKey ∈ usedPlayers g)
            || UseDailyPuzzle.alreadyCompleted h || isChecking g) eqn:Hguard.
  - cbn [fst snd]. rewrite Hstore. split; [reflexivity | exact Hsync].
  - assert (Hopen : UseDailyPuzzle.alreadyCompleted h = false).
    { destruct (UseDailyPuzzle.alreadyCompleted h); [|reflexivity].
      rewrite orb_true_r in Hguard. simpl in Hguard. discriminate. }
    rewrite Hlocal.
    destruct (generateNewFeedback players currentPuzzle playerKey None) as [fb|] eqn:Hfb.
    + cbn [fst snd feedbackList].
      destruct (recordGuess_guesses env h ls playerKey (isMVP fb) Hopen) as [Hh Hls].
      rewrite Hh, Hls. split; [reflexivity|].
      unfold rebuiltFeedback. rewrite omap_app. simpl. rewrite Hfb. simpl.
      rewrite Hsync. reflexivity.
    + cbn [fst snd feedbackList]. rewrite Hstore. split; [reflexivity | exact Hsync].
Qed.

Lemma rebuiltFeedback_preserved_witness :
  let out := handlePlayerGuess serviceDown [kohli] (Some final2024) launchNoon "kohli"
               newGame freshHook (saveGameState fresh emptyStorage) in
  guesses (loadGameState out.2) = guesses (UseDailyPuzzle.gameState out.1.2)
  /\ feedbackList out.1.1
     = rebuiltFeedback [kohli] (Some final2024) (guesses (loadGameState out.2)).
Proof.
  apply (rebuiltFeedback_preserved serviceDown [kohli] (Some final2024) launchNoon
           "kohli" newGame freshHook (saveGameState fresh emptyStorage));
    vm_compute; reflexivity.
Defined.

End Handlers.

(** ** Archive play and the priority players *)

Section ArchivePlay.
Import DailyPuzzle App AppPlay ArchiveModal.

(** X20. A guess in an archive game touches nothing of the daily game, and
    it marks the archive date exactly when it ends the game: with ['won'] if
    the feedback marks the target, with ['lost'] if it does not and the
    feedback list is then full; a mark already there is overwritten;
    otherwise the mark of the date stays as it was. The marks of all other
    dates stay as they were. *)
Theorem handleArchiveGuess_marks
    (players : list Player) (currentPuzzle : option Puzzle) (playerKey : string)
    (g : Game) (slot : option Completed) (feedback : Feedback) :
  archiveAccepting g playerKey ->
  generateNewFeedback players currentPuzzle playerKey (archivePuzzle g) = Some feedback ->
  let out := handleArchiveGuess players currentPuzzle playerKey g slot in
  let full := MAX_GUESSES <=? Z.of_nat (length (archiveFeedbackList g)) + 1 in
  archiveFeedbackList out.1 = archiveFeedbackList g ++ [feedback]
  /\ archiveGameWon out.1 = isMVP feedback
  /\ archiveGameOver out.1 = negb (isMVP feedback) && full
  /\ (feedbackList out.1 = feedbackList g /\ usedPlayers out.1 = usedPlayers g
      /\ gameWon out.1 = gameWon g /\ gameOver out.1 = gameOver g)
  /\ loadArchiveCompleted out.2 !! archivePuzzleDate g
     = (if isMVP feedback then Some ArchiveWon
        else if full then Some ArchiveLost
        else loadArchiveCompleted slot !! archivePuzzleDate g)
  /\ (forall other, other <> archivePuzzleDate g ->
        loadArchiveCompleted out.2 !! other = loadArchiveCompleted slot !! other).
Proof.
  intros (Hw & Ho & Hused & Hbusy) Hfb. cbv zeta. unfold handleArchiveGuess.
  rewrite Hw, Ho, Hbusy, (bool_decide_eq_false_2 _ Hused), Hfb. simpl.
  assert (Hlen : Z.of_nat (length (archiveFeedbackList g ++ [feedback]))
                 = Z.of_nat (length (archiveFeedbackList g)) + 1)
    by (rewrite length_app; simpl; lia).
  rewrite Hlen.
  destruct (isMVP feedback); simpl.
  - repeat split; try reflexivity.
    + apply lookup_insert_eq.
    + intros other Hne. apply lookup_insert_ne. congruence.
  - destruct (MAX_GUESSES <=? Z.of_nat (length (archiveFeedbackList g)) + 1); simpl.
    + repeat split; try reflexivity.
      * apply lookup_insert_eq.
      * intros other Hne. apply lookup_insert_ne. congruence.
    + repeat split; reflexivity.
Qed.

Lemma handleArchiveGuess_marks_witness :
  let out := handleArchiveGuess [kohli] None "kohli" replaying
               (Some {[ Some 20469 := ArchiveLost ]}) in
  let full := MAX_GUESSES <=? Z.of_nat (length (archiveFeedbackList replaying)) + 1 in
  archiveFeedbackList out.1 = archiveFeedbackList replaying ++ [hit]
  /\ archiveGameWon out.1 = isMVP hit
  /\ archiveGameOver out.1 = negb (isMVP hit) && full
  /\ (feedbackList out.1 = feedbackList replaying
      /\ usedPlayers out.1 = usedPlayers replaying
      /\ gameWon out.1 = gameWon replaying /\ gameOver out.1 = gameOver replaying)
  /\ loadArchiveCompleted out.2 !! archivePuzzleDate replaying
     = (if isMVP hit then Some ArchiveWon
        else if full then Some ArchiveLost
        else loadArchiveCompleted (Some {[ Some 20469 := ArchiveLost ]})
               !! archivePuzzleDate replaying)
  /\ (forall other, other <> archivePuzzleDate replaying ->
        loadArchiveCompleted out.2 !! other
        = loadArchiveCompleted (Some {[ Some 20469 := ArchiveLost ]}) !! other).
Proof.
  apply (handleArchiveGuess_marks [kohli] None "kohli" replaying
           (Some {[ Some 20469 := ArchiveLost ]}) hit).
  - unfold archiveAccepting. simpl. repeat split; try reflexivity. set_solver.
  - vm_compute. reflexivity.
Defined.

Lemma add_all_elem (ids : list string) (acc : gset string) (id : string) :
  id ∈ fold_left (fun ids id => {[id]} ∪ ids) ids acc <-> id ∈ acc \/ id ∈ ids.
Proof.
  revert acc. induction ids as [|x ids IH]; intros acc; simpl.
  - split; [auto|]. intros [H|H]; [exact H | inversion H].
  - rewrite IH, elem_of_union, elem_of_singleton, elem_of_cons. tauto.
Qed.

(** X21. The priority players are exactly the players listed in the
    [playersInMatch] of some puzzle together with the targets of the
    puzzles that name one; a target counts even when its own puzzle does not
    list it. *)
Theorem priorityPlayerIds_spec (puzzles : list Puzzle) (id : string) :
  id ∈ priorityPlayerIds puzzles
  <-> exists puzzle, puzzle ∈ puzzles
        /\ (id ∈ default [] (playersInMatch (matchData puzzle))
            \/ (id = targetPlayer puzzle /\ id <> EmptyString)).
Proof.
  unfold priorityPlayerIds.
  assert (G : forall acc : gset string,
    id ∈ fold_left
           (fun ids puzzle =>
              let playersInMatch := default [] (playersInMatch (matchData puzzle)) in
              let ids := fold_left (fun ids id => {[id]} ∪ ids) playersInMatch ids in
              if negb (bool_decide (targetPlayer puzzle = EmptyString))
              then {[targetPlayer puzzle]} ∪ ids else ids)
           puzzles acc
    <-> id ∈ acc \/ exists puzzle, puzzle ∈ puzzles
          /\ (id ∈ default [] (playersInMatch (matchData puzzle))
              \/ (id = targetPlayer puzzle /\ id <> EmptyString))).
  { induction puzzles as [|p puzzles IH]; intros acc; simpl.
    - split; [auto|]. intros [H|(q & Hq & _)]; [exact H|]. inversion Hq.
    - rewrite IH. clear IH.
      assert (Hstep : id ∈ (if negb (bool_decide (targetPlayer p = EmptyString))
                            then {[targetPlayer p]}
                                 ∪ fold_left (fun ids id => {[id]} ∪ ids)
                                     (default [] (playersInMatch (matchData p))) acc
                            else fold_left (fun ids id => {[id]} ∪ ids)
                                   (default [] (playersInMatch (matchData p))) acc)
                     <-> id ∈ acc
                         \/ id ∈ default [] (playersInMatch (matchData p))
                         \/ (id = targetPlayer p /\ id <> EmptyString)).
      { case_bool_decide as Htarget; simpl.
        - rewrite add_all_elem. split; [tauto|].
          intros [H|[H|[-> H]]]; [tauto | tauto | contradiction].
        - rewrite elem_of_union, elem_of_singleton, add_all_elem.
          split; [|tauto].
          intros [->|H]; [|tauto]. right. right. split; [reflexivity | assumption]. }
      rewrite Hstep. split.
      + intros [[H|H]|(q & Hq & Hcase)].
        * left. exact H.
        * right. exists p. split; [apply list_elem_of_here | exact H].
        * right. exists q. split; [apply list_elem_of_further; exact Hq | exact Hcase].
      + intros [H|(q & Hq & Hcase)]; [tauto|].
        apply elem_of_cons in Hq as [->|Hq]; [tauto|].
        right. exists q. tauto. }
  rewrite G. split; [|auto]. intros [H|H]; [set_solver | exact H].
Qed.

(** The target of the mislabelled puzzle is a priority player although the
    puzzle does not list it. *)
Example priorityPlayerIds_target :
  "kohli"%string ∈ priorityPlayerIds [mislabelled].
Proof. unfold priorityPlayerIds. simpl. set_solver. Qed.

End ArchivePlay.

(** ** The all-time leaderboard *)

Section SortFacts.
Context {A : Type} (cmp : A -> A -> Z) (R : A -> A -> Prop).
Hypothesis cmp_le : forall x y, cmp x y <= 0 -> R x y.
Hypothesis cmp_gt : forall x y, 0 < cmp x y -> R y x.
Hypothesis R_trans : forall x y z, R x y -> R y z -> R x z.

Lemma JS_insert_perm (x : A) (l : list A) : JS.insert cmp x l ≡ₚ x :: l.
Proof.
  induction l as [|y l IH]; simpl; [reflexivity|].
  destruct (cmp x y <=? 0); [reflexivity|].
  rewrite IH. apply Permutation_swap.
Qed.

Lemma JS_sort_perm (l : list A) : JS.sort cmp l ≡ₚ l.
Proof.
  induction l as [|x l IH]; simpl; [reflexivity|].
  rewrite JS_insert_perm, IH. reflexivity.
Qed.

Lemma JS_insert_ordered (x : A) (l : list A) :
  StronglySorted R l -> StronglySorted R (JS.insert cmp x l).
Proof.
  induction 1 as [|y l Hl IH Hy]; simpl.
  - repeat constructor.
  - destruct (Z.leb_spec (cmp x y) 0) as [Hle|Hgt].
    + constructor; [constructor; assumption|].
      constructor; [apply cmp_le; assumption|].
      eapply Forall_impl; [exact Hy|].
      intros z Hz. eapply R_trans; [apply cmp_le; eassumption | exact Hz].
    + constructor; [assumption|].
      rewrite JS_insert_perm. constructor; [apply cmp_gt; assumption | assumption].
Qed.

Lemma JS_sort_ordered (l : list A) : StronglySorted R (JS.sort cmp l).
Proof.
  induction l as [|x l IH]; simpl; [constructor|].
  apply JS_insert_ordered, IH.
Qed.

(** A list already in order comes back from the sort as it is. *)
Lemma JS_sort_ordered_id (l : list A) :
  (forall x y, R x y -> cmp x y <= 0) ->
  StronglySorted R l -> JS.sort cmp l = l.
Proof.
  intros Hle. induction 1 as [|x l Hl IH Hx]; simpl; [reflexivity|].
  rewrite IH. destruct l as [|y l]; simpl; [reflexivity|].
  inversion Hx as [|? ? Hxy _]; subst.
  destruct (Z.leb_spec (cmp x y) 0) as [_|Hgt]; [reflexivity|].
  specialize (Hle x y Hxy). lia.
Qed.

End SortFacts.

Section AllTime.
Import Supabase.

Lemma rowsOf_app (id : string) (data1 data2 : list StatRow) :
  rowsOf id (data1 ++ data2) = rowsOf id data1 ++ rowsOf id data2.
Proof. unfold rowsOf. apply filter_app. Qed.

Lemma rowsOf_own (id : string) (row : StatRow) :
  entry_user_id row = Some id -> rowsOf id [row] = [row].
Proof.
  intros H. unfold rowsOf. rewrite filter_cons, decide_True by assumption. reflexivity.
Qed.

Lemma rowsOf_other (id : string) (row : StatRow) :
  entry_user_id row <> Some id -> rowsOf id [row] = [].
Proof.
  intros H. unfold rowsOf. rewrite filter_cons, decide_False by assumption. reflexivity.
Qed.

(** Other users' sums are not affected by a further row. *)
Lemma sumsUp_other (data : list StatRow) (row : StatRow) (stat : PlayerStat) :
  entry_user_id row <> Some (discord_user_id stat) ->
  sumsUp data stat -> sumsUp (data ++ [row]) stat.
Proof.
  intros Hne. unfold sumsUp, gamesOf, winsOf, guessesOf.
  rewrite rowsOf_app, (rowsOf_other _ _ Hne), app_nil_r. tauto.
Qed.

Lemma foldr_add_app (l1 l2 : list Z) :
  foldr Z.add 0 (l1 ++ l2) = foldr Z.add 0 l1 + foldr Z.add 0 l2.
Proof. induction l1 as [|x l1 IH]; simpl; [reflexivity | rewrite IH; lia]. Qed.

(** The user's own sum is counted up by a further row of the user. *)
Lemma sumsUp_count (data : list StatRow) (row : StatRow) (stat : PlayerStat) :
  entry_user_id row = Some (discord_user_id stat) ->
  sumsUp data stat -> sumsUp (data ++ [row]) (count stat row).
Proof.
  intros Hown (Hid & Hrows & Hg & Hw & Hs & Hname).
  unfold sumsUp, gamesOf, winsOf, guessesOf in *. simpl.
  rewrite rowsOf_app, (rowsOf_own _ _ Hown), !filter_app, !length_app, fmap_app,
    foldr_add_app, Hg, Hw, Hs.
  split; [exact Hid|]. split; [intros H; apply app_eq_nil in H as [_ H]; discriminate|].
  split; [simpl; lia|].
  rewrite filter_cons. destruct (entry_won row) eqn:Hwon.
  - rewrite decide_True by reflexivity. simpl.
    split; [lia|]. split; [lia|].
    destruct (rowsOf (discord_user_id stat) data); [contradiction | exact Hname].
  - rewrite decide_False by discriminate. simpl.
    split; [lia|]. split; [lia|].
    destruct (rowsOf (discord_user_id stat) data); [contradiction | exact Hname].
Qed.

(** A first row of a user makes the user's sum. *)
Lemma sumsUp_first (data : list StatRow) (row : StatRow) (id : string) :
  counted id ->
  entry_user_id row = Some id ->
  rowsOf id data = [] ->
  sumsUp (data ++ [row])
    (count {| discord_user_id := id; discord_username := entry_username row;
              discord_avatar := entry_avatar row; games_played := 0;
              total_wins := 0; total_guesses := 0 |} row).
Proof.
  intros Hid Hown Hnone. unfold sumsUp, gamesOf, winsOf, guessesOf. simpl.
  rewrite rowsOf_app, Hnone, (rowsOf_own _ _ Hown). simpl.
  split; [exact Hid|]. split; [discriminate|]. split; [reflexivity|].
  rewrite filter_cons. destruct (entry_won row).
  - rewrite decide_True by reflexivity. simpl. repeat split; lia.
  - rewrite decide_False by discriminate. simpl. repeat split; lia.
Qed.

(** One turn of the loop on values that sum up the rows so far, one value
    per user. *)
Lemma tally_sumsUp (data : list StatRow) (row : StatRow) (id : string)
    (playerStats : list PlayerStat) :
  counted id ->
  entry_user_id row = Some id ->
  NoDup (discord_user_id <$> playerStats) ->
  Forall (sumsUp data) playerStats ->
  (rowsOf id data <> [] -> id ∈ discord_user_id <$> playerStats) ->
  Forall (sumsUp (data ++ [row])) (tally id row playerStats)
  /\ (discord_user_id <$> tally id row playerStats
      = if bool_decide (id ∈ discord_user_id <$> playerStats)
        then discord_user_id <$> playerStats
        else (discord_user_id <$> playerStats) ++ [id]).
Proof.
  intros Hid Hown.
  induction playerStats as [|stat rest IH]; intros Hnodup Hall Hknown.
  - simpl. rewrite bool_decide_eq_false_2 by apply Hid. split; [|reflexivity].
    constructor; [|constructor].
    apply sumsUp_first; [assumption | assumption|].
    destruct (rowsOf id data) eqn:Hrows; [reflexivity|].
    exfalso. specialize (Hknown ltac:(discriminate)). inversion Hknown.
  - apply Forall_cons in Hall as [Hstat Hrest].
    rewrite fmap_cons in Hnodup. apply NoDup_cons in Hnodup as [Hfresh Hnodup].
    cbn [tally]. rewrite (fmap_cons discord_user_id stat rest).
    destruct (decide (discord_user_id stat = id)) as [Heq|Hne].
    + rewrite (bool_decide_eq_true_2 _ Heq).
      rewrite bool_decide_eq_true_2 by (rewrite Heq; apply list_elem_of_here).
      split; [|reflexivity]. constructor.
      * apply sumsUp_count; [rewrite Heq; assumption | assumption].
      * rewrite Forall_forall in Hrest. apply Forall_forall. intros other Hother.
        apply sumsUp_other; [|apply Hrest; assumption].
        rewrite Hown. intros [= Hsame]. apply Hfresh. rewrite Heq, Hsame.
        apply list_elem_of_fmap. exists other. split; [reflexivity | assumption].
    + rewrite (bool_decide_eq_false_2 _ Hne).
      destruct (IH Hnodup Hrest) as [Hall' Hids'].
      { intros Hrows. specialize (Hknown Hrows).
        apply elem_of_cons in Hknown as [Hk|Hk]; [congruence | exact Hk]. }
      split.
      * constructor; [|exact Hall'].
        apply sumsUp_other; [|assumption]. rewrite Hown. congruence.
      * rewrite fmap_cons, Hids'.
        destruct (decide (id ∈ discord_user_id <$> rest)) as [Hin|Hnin].
        -- rewrite !bool_decide_eq_true_2; [reflexivity | | assumption].
           apply list_elem_of_further. assumption.
        -- rewrite !bool_decide_eq_false_2; [reflexivity | | assumption].
           intros Hcons. apply elem_of_cons in Hcons as [Hk|Hk]; [congruence | tauto].
Qed.

(** Under an inherited name that is not a key nothing changes. *)
Lemma tally_inherited (id : string) (row : StatRow) (playerStats : list PlayerStat) :
  id ∈ objectPrototypeKeys ->
  Forall (fun stat => discord_user_id stat <> id) playerStats ->
  tally id row playerStats = playerStats.
Proof.
  intros Hproto Hall. induction Hall as [|stat rest Hne _ IH]; simpl.
  - rewrite bool_decide_eq_true_2 by exact Hproto. reflexivity.
  - rewrite (bool_decide_eq_false_2 _ Hne), IH. reflexivity.
Qed.

(** The loop as a whole: one value per user with a row, each summing up the
    rows of its user. *)
Lemma playerStatsOf_sumsUp (data : list StatRow) :
  NoDup (discord_user_id <$> playerStatsOf data)
  /\ Forall (sumsUp data) (playerStatsOf data)
  /\ (forall id, counted id -> rowsOf id data <> [] ->
        id ∈ discord_user_id <$> playerStatsOf data).
Proof.
  induction data as [|row data IH] using rev_ind.
  - split; [constructor|]. split; [constructor|]. intros id _ H. contradiction.
  - destruct IH as (Hnodup & Hall & Hcover).
    unfold playerStatsOf in *. rewrite fold_left_app. simpl.
    set (stats := fold_left _ data []) in *.
    assert (Hskip : (forall id, counted id -> entry_user_id row <> Some id) ->
              NoDup (discord_user_id <$> stats)
              /\ Forall (sumsUp (data ++ [row])) stats
              /\ (forall id, counted id -> rowsOf id (data ++ [row]) <> [] ->
                    id ∈ discord_user_id <$> stats)).
    { intros Hnone. split; [exact Hnodup|]. split.
      - eapply Forall_impl; [exact Hall|]. intros stat Hstat.
        apply sumsUp_other; [|exact Hstat]. apply Hnone. apply Hstat.
      - intros id Hid. rewrite rowsOf_app, (rowsOf_other _ _ (Hnone id Hid)), app_nil_r.
        apply Hcover. exact Hid. }
    destruct (entry_user_id row) as [rid|] eqn:Hrid.
    + case_bool_decide as Hempty.
      { apply Hskip. intros id [Hid _]. congruence. }
      destruct (decide (rid ∈ objectPrototypeKeys)) as [Hproto|Hown].
      { rewrite (tally_inherited rid row stats Hproto).
        - apply Hskip. intros id [_ Hid]. congruence.
        - eapply Forall_impl; [exact Hall|]. intros stat (Hstat & _) Heq.
          apply Hstat. rewrite Heq. exact Hproto. }
      assert (Hcounted : counted rid) by (split; assumption).
      * destruct (tally_sumsUp data row rid stats Hcounted Hrid Hnodup Hall
                    (Hcover rid Hcounted))
          as [Hall' Hids'].
        split; [|split; [exact Hall'|]].
        -- rewrite Hids'. case_bool_decide as Hin; [exact Hnodup|].
           apply NoDup_app. split; [exact Hnodup|]. split.
           ++ intros x Hx Hx'. apply list_elem_of_singleton in Hx'. subst x. tauto.
           ++ apply NoDup_singleton.
        -- intros id Hid Hrows. rewrite Hids'.
           destruct (decide (id = rid)) as [->|Hne].
           ++ case_bool_decide as Hin; [exact Hin|].
              apply elem_of_app. right. apply list_elem_of_singleton. reflexivity.
           ++ rewrite rowsOf_app, (rowsOf_other id row), app_nil_r in Hrows
                by (rewrite Hrid; congruence).
              specialize (Hcover id Hid Hrows).
              case_bool_decide; [exact Hcover|]. apply elem_of_app. left. exact Hcover.
    + apply Hskip. intros id Hid. discriminate.
Qed.

(** X22. The all-time leaderboard lists every user who has a row with a
    Discord id exactly once and nobody else. The entry of a user sums up the
    rows of that user: the games played are their number, the wins are the
    number of winning ones, the guesses are the total of the guesses of the
    winning ones, and the name is that of the user's first row. Rows without
    a Discord id are not counted, and neither are rows whose id is a name
    that objects inherit, such as [constructor]. *)
Theorem allTimeLeaderboardOf_sums (data : list StatRow) :
  NoDup (discord_user_id <$> allTimeLeaderboardOf data)
  /\ (forall stat, stat ∈ allTimeLeaderboardOf data -> sumsUp data stat)
  /\ (forall id, counted id -> rowsOf id data <> [] ->
        id ∈ discord_user_id <$> allTimeLeaderboardOf data).
Proof.
  destruct (playerStatsOf_sumsUp data) as (Hnodup & Hall & Hcover).
  assert (Hperm : allTimeLeaderboardOf data ≡ₚ playerStatsOf data)
    by apply JS_sort_perm.
  split; [rewrite Hperm; exact Hnodup|]. split.
  - intros stat Hin. rewrite Hperm in Hin. rewrite Forall_forall in Hall. auto.
  - intros id Hid Hrows. rewrite Hperm. auto.
Qed.

(** X23. On the all-time leaderboard a player with more wins is never
    listed after a player with fewer wins. *)
Theorem allTimeLeaderboardOf_order (data : list StatRow) (i j : nat) (a b : PlayerStat) :
  (i < j)%nat ->
  allTimeLeaderboardOf data !! i = Some a ->
  allTimeLeaderboardOf data !! j = Some b ->
  total_wins b <= total_wins a.
Proof.
  intros Hij Hi Hj.
  refine (StronglySorted_at (fun x y => total_wins y <= total_wins x) _ _ i j a b Hij Hi Hj).
  apply (JS_sort_ordered compareStats).
  - intros x y. unfold compareStats.
    destruct (Z.eqb_spec (total_wins y) (total_wins x)); simpl; lia.
  - intros x y. unfold compareStats.
    destruct (Z.eqb_spec (total_wins y) (total_wins x)); simpl; lia.
  - intros x y z. lia.
Qed.

Lemma allTimeLeaderboardOf_order_witness :
  total_wins (mkPlayerStat "u3" (Some "cy"%string) None 1 1 4)
  <= total_wins (mkPlayerStat "u1" (Some "ann"%string) None 2 2 5).
Proof.
  apply (allTimeLeaderboardOf_order seasonRows 0 1); [lia | vm_compute; reflexivity ..].
Defined.

(** The sample season: two wins in five guesses for user [u1], listed under
    the name of the first row; then user [u3]; then user [u2], without a win;
    the row without an id and the row under [constructor] are left out. *)
Example allTimeLeaderboardOf_season :
  allTimeLeaderboardOf seasonRows
  = [ mkPlayerStat "u1" (Some "ann"%string) None 2 2 5;
      mkPlayerStat "u3" (Some "cy"%string) None 1 1 4;
      mkPlayerStat "u2" (Some "bob"%string) None 1 0 0 ].
Proof. vm_compute. reflexivity. Qed.

End AllTime.

(** ** Rank and board *)

Section RankAndBoard.
Import UseLeaderboard.

Lemma ranksBefore_compareRows (a b : Row) : ranksBefore a b -> compareRows a b <= 0.
Proof. apply compareRows_le. Qed.

Lemma StronglySorted_filter_won (rows : list Row) :
  StronglySorted ranksBefore rows ->
  StronglySorted ranksBefore (filter (fun r => won (entry r) = true) rows).
Proof.
  induction 1 as [|x l Hl IH Hx]; [constructor|].
  rewrite filter_cons. case_decide; [|exact IH].
  constructor; [exact IH|]. apply Forall_forall. intros y Hy.
  apply list_elem_of_filter in Hy as [_ Hy].
  rewrite Forall_forall in Hx. apply Hx, Hy.
Qed.

(** On rows delivered in the order of the query the ranked order is just the
    winners, in the order delivered. *)
Lemma rankedRows_of_ordered (rows : list Row) :
  StronglySorted ranksBefore rows ->
  rankedRows rows = filter (fun r => won (entry r) = true) rows.
Proof.
  intros Hsorted. unfold rankedRows.
  apply (JS_sort_ordered_id compareRows ranksBefore).
  - apply ranksBefore_compareRows.
  - apply StronglySorted_filter_won, Hsorted.
Qed.

(** The first row found in a list is found in a filtered list, if it passes
    the filter, after the rows before it that pass the filter. *)
Lemma list_find_filter {A : Type} (P Q : A -> Prop)
    `{forall x, Decision (P x)} `{forall x, Decision (Q x)}
    (l : list A) (i : nat) (x : A) :
  list_find P l = Some (i, x) -> Q x ->
  list_find P (filter Q l) = Some (length (filter Q (take i l)), x).
Proof.
  revert i. induction l as [|y l IH]; intros i Hfind Hq; [discriminate|].
  simpl in Hfind. destruct (decide (P y)) as [Hp|Hp].
  - injection Hfind as <- <-. simpl.
    rewrite filter_cons, decide_True by assumption.
    simpl. rewrite decide_True by assumption. reflexivity.
  - destruct (list_find P l) as [[k z]|] eqn:Hl; [|discriminate].
    simpl in Hfind. injection Hfind as <- <-.
    specialize (IH k eq_refl Hq). simpl.
    rewrite !filter_cons. destruct (decide (Q y)) as [Hy|Hy].
    + simpl. rewrite decide_False by assumption. rewrite IH. reflexivity.
    + exact IH.
Qed.

(** X24. The rank that [getUserRanking] reports counts the losing rows too.
    On rows delivered in the order of the query, for a user whose row is a
    win found at position [i], the reported rank is [i + 1], while the place
    of that row on the winners-only board is one more than the number of
    winners before it: never worse than the reported rank, and better by one
    for every losing row ranked before it. *)
Theorem userRanking_counts_losses (data : list Row) (userId : string) (i : nat) (r : Row) :
  StronglySorted ranksBefore data ->
  list_find (rowOf userId) data = Some (i, r) ->
  won (entry r) = true ->
  let winnersBefore := length (filter (fun r => won (entry r) = true) (take i data)) in
  let losersBefore := length (filter (fun r => won (entry r) <> true) (take i data)) in
  Supabase.userRankingOf (Some data) userId = Some (Z.of_nat i + 1)
  /\ list_find (rowOf userId) (rankedRows data) = Some (winnersBefore, r)
  /\ (winnersBefore + losersBefore = i)%nat.
Proof.
  intros Hsorted Hfind Hwon. cbv zeta.
  split; [|split].
  - unfold Supabase.userRankingOf.
    replace (list_find _ data) with (Some (i, r)) by (symmetry; exact Hfind).
    reflexivity.
  - rewrite (rankedRows_of_ordered data Hsorted).
    apply (list_find_filter (rowOf userId) (fun r => won (entry r) = true));
      assumption.
  - apply list_find_Some in Hfind as (Hlookup & _ & _).
    apply lookup_lt_Some in Hlookup.
    rewrite <- (length_take_le data i) at 3 by lia.
    generalize (take i data). intros l.
    induction l as [|y l IH]; [reflexivity|].
    rewrite !filter_cons. destruct (decide (won (entry y) = true)) as [Hy|Hy].
    + rewrite decide_False by tauto. simpl. lia.
    + rewrite decide_True by assumption. simpl. lia.
Qed.

Lemma userRanking_counts_losses_witness :
  let winnersBefore :=
    length (filter (fun r => won (entry r) = true) (take 2 lateWinner)) in
  let losersBefore :=
    length (filter (fun r => won (entry r) <> true) (take 2 lateWinner)) in
  Supabase.userRankingOf (Some lateWinner) "cy" = Some (Z.of_nat 2 + 1)
  /\ list_find (rowOf "cy") (rankedRows lateWinner) = Some (winnersBefore, row "cy" 5 true 300)
  /\ (winnersBefore + losersBefore = 2)%nat.
Proof.
  apply (userRanking_counts_losses lateWinner "cy" 2 (row "cy" 5 true 300)).
  - unfold lateWinner, ranksBefore.
    repeat (constructor; [|repeat constructor; simpl; lia]). constructor.
  - vm_compute. reflexivity.
  - reflexivity.
Defined.

(** On that board the user is told rank 3 and stands second among the
    winners. *)
Example late_winner_rank :
  Supabase.userRankingOf (Some lateWinner) "cy" = Some 3
  /\ rankedRows lateWinner = [row "ann" 2 true 100; row "cy" 5 true 300]
  /\ userRanking (detectSubmission playerCy (board lateWinner)) = Some 3.
Proof. vm_compute. repeat split. Qed.

(** A hook that is submitting or has submitted refuses a submission without
    calling the store. *)
Lemma submitToLeaderboard_refused
    (Store : Type)
    (submitLeaderboardEntry : Entry -> Store -> JS.Completion SubmitResult * Store)
    (getLeaderboardForPuzzle : Z -> option string -> Store -> JS.Completion (list Row))
    (getUserRanking : Z -> string -> option string -> Store -> JS.Completion (option Z))
    (p : Props) (guessesUsed : Z) (won_ : bool) (h : Hook) (db : Store) :
  isSubmitting h = true \/ hasSubmitted h = true ->
  submitToLeaderboard submitLeaderboardEntry getLeaderboardForPuzzle getUserRanking
    p guessesUsed won_ h db
  = ({| success := false; duplicate := false;
        error := Some "Invalid submission state"%string |}, None, h, db).
Proof.
  intros Hbusy. unfold submitToLeaderboard.
  destruct (discordUserId p) as [userId|]; [|reflexivity].
  destruct (puzzleDate p) as [date|]; [|reflexivity].
  destruct Hbusy as [-> | ->]; rewrite ?orb_true_r; reflexivity.
Qed.

(** X25. One submission per hook: once [submitToLeaderboard] has resolved
    to a success, a further call is refused with 'Invalid submission state',
    hands no entry to the store and leaves the store and the hook state as
    they are, whatever the store is. *)
Theorem submitToLeaderboard_once
    (Store : Type)
    (submitLeaderboardEntry : Entry -> Store -> JS.Completion SubmitResult * Store)
    (getLeaderboardForPuzzle : Z -> option string -> Store -> JS.Completion (list Row))
    (getUserRanking : Z -> string -> option string -> Store -> JS.Completion (option Z))
    (p : Props) (guessesUsed guessesUsed' : Z) (won_ won' : bool) (h : Hook) (db : Store) :
  let first :=
    submitToLeaderboard submitLeaderboardEntry getLeaderboardForPuzzle getUserRanking
      p guessesUsed won_ h db in
  success first.1.1.1 = true ->
  submitToLeaderboard submitLeaderboardEntry getLeaderboardForPuzzle getUserRanking
    p guessesUsed' won' first.1.2 first.2
  = ({| success := false; duplicate := false;
        error := Some "Invalid submission state"%string |}, None, first.1.2, first.2).
Proof.
  cbv zeta. intros Hsuccess. apply submitToLeaderboard_refused. right.
  revert Hsuccess. unfold submitToLeaderboard.
  destruct (discordUserId p) as [userId|]; [|discriminate].
  destruct (puzzleDate p) as [date|]; [|discriminate].
  destruct (negb (truthy (Some userId)) || isSubmitting h || hasSubmitted h);
    [discriminate|].
  match goal with
  | |- context [submitLeaderboardEntry ?x db] =>
      destruct (submitLeaderboardEntry x db) as [[result|msg] db']
  end; [|discriminate].
  destruct (success result) eqn:Hres.
  - destruct (getUserRanking date userId (queryGuildId p) db'); [|discriminate].
    intros _. simpl. unfold fetchPuzzleLeaderboard.
    destruct (puzzleDate p); [|reflexivity].
    destruct (getLeaderboardForPuzzle _ _ db'); reflexivity.
  - simpl. rewrite Hres. discriminate.
Qed.

Lemma submitToLeaderboard_once_witness :
  let first := submitToLeaderboard listSubmit listFetch listRanking player1 3 false noRows [] in
  submitToLeaderboard listSubmit listFetch listRanking player1 2 true first.1.2 first.2
  = ({| success := false; duplicate := false;
        error := Some "Invalid submission state"%string |}, None, first.1.2, first.2).
Proof.
  apply (submitToLeaderboard_once (list Row) listSubmit listFetch listRanking
           player1 3 2 false true noRows []).
  vm_compute. reflexivity.
Defined.

(** X26. A user with a row on the fetched leaderboard counts as having
    submitted: the effect sets [hasSubmitted], reports as rank the position
    of the user's first row in the list as fetched, at least 1 and at most
    the number of rows, and from then on a submission is refused; a user
    without a row leaves the hook as it is. *)
Theorem detectSubmission_spec (p : Props) (h : Hook) (userId : string) :
  discordUserId p = Some userId -> userId <> EmptyString ->
  match list_find (rowOf userId) (puzzleLeaderboard h) with
  | Some (index, _) =>
      hasSubmitted (detectSubmission p h) = true
      /\ userRanking (detectSubmission p h) = Some (Z.of_nat index + 1)
      /\ 1 <= Z.of_nat index + 1 <= Z.of_nat (length (puzzleLeaderboard h))
      /\ puzzleLeaderboard (detectSubmission p h) = puzzleLeaderboard h
  | None => detectSubmission p h = h
  end.
Proof.
  intros Huser Hne. unfold detectSubmission, rowOf. rewrite Huser.
  simpl. rewrite (bool_decide_eq_false_2 _ Hne). simpl.
  destruct (list_find _ (puzzleLeaderboard h)) as [[index existing]|] eqn:Hfind.
  - apply list_find_Some in Hfind as (Hlookup & _ & _).
    apply lookup_lt_Some in Hlookup.
    destruct (Z.ltb_spec 0 (Z.of_nat (length (puzzleLeaderboard h)))) as [_|Hlen]; [|lia].
    simpl. repeat split; lia.
  - destruct (0 <? _); reflexivity.
Qed.

Lemma detectSubmission_spec_witness :
  match list_find (rowOf "cy") (puzzleLeaderboard (board lateWinner)) with
  | Some (index, _) =>
      hasSubmitted (detectSubmission playerCy (board lateWinner)) = true
      /\ userRanking (detectSubmission playerCy (board lateWinner))
         = Some (Z.of_nat index + 1)
      /\ 1 <= Z.of_nat index + 1
         <= Z.of_nat (length (puzzleLeaderboard (board lateWinner)))
      /\ puzzleLeaderboard (detectSubmission playerCy (board lateWinner))
         = puzzleLeaderboard (board lateWinner)
  | None => detectSubmission playerCy (board lateWinner) = board lateWinner
  end.
Proof.
  apply (detectSubmission_spec playerCy (board lateWinner) "cy");
    [reflexivity | discriminate].
Defined.

End RankAndBoard.

(** ** The leaderboard preview *)

Section Preview.
Import UseLeaderboard LeaderboardPreview.

(** The rows of a slice between two bounds within the array. *)
Lemma slice_lookup {A : Type} (arr : list A) (start end_ : Z) (i : nat) :
  0 <= start -> 0 <= end_ <= Z.of_nat (length arr) ->
  JS.slice arr start end_ !! i
  = if Z.of_nat i <? end_ - start then arr !! (Z.to_nat start + i)%nat else None.
Proof.
  intros Hstart Hend. unfold JS.slice, JS.clampIndex. cbv zeta.
  destruct (Z.ltb_spec start 0) as [|_]; [lia|].
  destruct (Z.ltb_spec end_ 0) as [|_]; [lia|].
  rewrite (Z.min_l end_) by lia.
  destruct (Z.ltb_spec (Z.of_nat i) (end_ - start)) as [Hin|Hout].
  - rewrite Z.min_l by lia.
    rewrite lookup_take_lt by lia. apply lookup_drop.
  - apply lookup_take_ge.
    destruct (Z.le_gt_cases start (Z.of_nat (length arr))).
    + rewrite Z.min_l by lia. lia.
    + rewrite Z.min_r by lia. lia.
Qed.

(** X27. For a user ranked below third, the preview shows under the first
    three winners the winners from two places above the user's rank, but not
    above the third place, to one place below it, as far as there are
    winners: at most four consecutive rows of the board, among them the row
    at the user's rank when the board is that long. For rank 4 or 5 the
    window starts with the third winner, a row that the first three already
    show. *)
Theorem surrounding_window (entries : list Row) (ranking : Z) :
  3 < ranking ->
  let board := winners entries in
  let first := Z.max 2 (ranking - 3) in
  let stop := Z.min (Z.of_nat (length board)) (ranking + 1) in
  (forall i : nat,
      surrounding entries (Some ranking) !! i
      = if Z.of_nat i <? stop - first then board !! (Z.to_nat first + i)%nat else None)
  /\ (length (surrounding entries (Some ranking)) <= 4)%nat
  /\ (ranking <= Z.of_nat (length board) ->
        surrounding entries (Some ranking) !! Z.to_nat (ranking - 1 - first)
        = board !! Z.to_nat (ranking - 1))
  /\ (ranking <= 5 -> 3 <= Z.of_nat (length board) ->
        head (surrounding entries (Some ranking)) = board !! 2%nat
        /\ last (top3 entries) = board !! 2%nat).
Proof.
  intros Hrank. cbv zeta.
  set (board := winners entries).
  assert (Hlookup : forall i : nat,
             surrounding entries (Some ranking) !! i
             = if Z.of_nat i <? Z.min (Z.of_nat (length board)) (ranking + 1)
                                 - Z.max 2 (ranking - 3)
               then board !! (Z.to_nat (Z.max 2 (ranking - 3)) + i)%nat else None).
  { intros i. unfold surrounding. fold board.
    destruct (Z.eqb_spec ranking 0) as [|_]; [lia|].
    destruct (Z.ltb_spec 3 ranking) as [_|]; [|lia]. simpl.
    replace (Z.max 3 (ranking - 2) - 1) with (Z.max 2 (ranking - 3)) by lia.
    apply slice_lookup; lia. }
  split; [exact Hlookup|]. split; [|split].
  - destruct (Nat.le_gt_cases (length (surrounding entries (Some ranking))) 4)
      as [Hle|Hgt]; [exact Hle|].
    destruct (lookup_lt_is_Some_2 (surrounding entries (Some ranking)) 4 Hgt) as [x Hx].
    rewrite Hlookup in Hx.
    destruct (Z.ltb_spec (Z.of_nat 4)
                (Z.min (Z.of_nat (length board)) (ranking + 1) - Z.max 2 (ranking - 3)));
      [lia | discriminate].
  - intros Hlen. rewrite Hlookup.
    destruct (Z.ltb_spec (Z.of_nat (Z.to_nat (ranking - 1 - Z.max 2 (ranking - 3))))
                (Z.min (Z.of_nat (length board)) (ranking + 1) - Z.max 2 (ranking - 3)));
      [|lia].
    f_equal. lia.
  - intros Hsmall Hlen. split.
    + rewrite head_lookup, Hlookup.
      destruct (Z.ltb_spec (Z.of_nat 0)
                  (Z.min (Z.of_nat (length board)) (ranking + 1) - Z.max 2 (ranking - 3)));
        [|lia].
      f_equal. lia.
    + unfold top3. fold board. rewrite last_lookup.
      assert (Hlen3 : length (JS.slice board 0 3) = 3%nat).
      { unfold JS.slice, JS.clampIndex. cbv zeta.
        change (0 <? 0) with false. change (3 <? 0) with false. cbv iota.
        rewrite length_take, length_drop. lia. }
      rewrite Hlen3. simpl. rewrite slice_lookup by lia. reflexivity.
Qed.

Lemma surrounding_window_witness :
  let board := winners sixWinners in
  let first := Z.max 2 (4 - 3) in
  let stop := Z.min (Z.of_nat (length board)) (4 + 1) in
  (forall i : nat,
      surrounding sixWinners (Some 4) !! i
      = if Z.of_nat i <? stop - first then board !! (Z.to_nat first + i)%nat else None)
  /\ (length (surrounding sixWinners (Some 4%Z)) <= 4)%nat
  /\ (4 <= Z.of_nat (length board) ->
        surrounding sixWinners (Some 4) !! Z.to_nat (4 - 1 - first)
        = board !! Z.to_nat (4 - 1))
  /\ (4 <= 5 -> 3 <= Z.of_nat (length board) ->
        head (surrounding sixWinners (Some 4)) = board !! 2%nat
        /\ last (top3 sixWinners) = board !! 2%nat).
Proof. apply (surrounding_window sixWinners 4). lia. Defined.

(** For the user ranked fourth of six the third winner is shown twice. *)
Example surrounding_rank4 :
  top3 sixWinners = [row "a" 1 true 1; row "b" 2 true 2; row "c" 3 true 3]
  /\ surrounding sixWinners (Some 4)
     = [row "c" 3 true 3; row "d" 3 true 4; row "e" 4 true 5].
Proof. vm_compute. repeat split. Qed.

End Preview.
